(** * exercise.py: a Redis-backed cache with call counting and call history

    A shallow embedding of [0x02-redis_basic/exercise.py].  The program
    is a class [Cache] whose methods talk to a Redis server, two
    decorators that do bookkeeping in the same server, and a function
    [replay] that prints what the decorators recorded.

    Python effects are modelled by a state-and-exception monad over a
    [world] made of the Redis database, the standard output and the
    number of identifiers drawn so far.  The Redis client, [uuid.uuid4]
    and the builtins [int], [str], [bytes.decode] and [print] are the
    environment of the program; the first part of the file models them,
    the second part is the program. *)

From Stdlib Require Import ZArith Ascii String List DecimalString DecimalPos DecimalZ.
From stdpp Require Import base option list gmap strings.

Local Open Scope string_scope.
Local Open Scope Z_scope.

(** ** Byte strings and text

    A [bytes] object is a Rocq [string] (a sequence of 8-bit
    characters).  A [str] is represented by its UTF-8 encoding, so that
    [str.encode()] is the identity on representations and
    [bytes.decode("utf-8")] is a validity check. *)

Module Utf8.

(** States of the strict UTF-8 recogniser: [Start] is between two
    characters, the others say which continuation bytes must follow. *)
Inductive state :=
| Start        (* at a character boundary *)
| Tail1        (* one byte 80..BF to go *)
| Tail2        (* two bytes 80..BF to go *)
| Tail3        (* three bytes 80..BF to go *)
| AfterE0      (* A0..BF, then one more: no overlong 3-byte form *)
| AfterED      (* 80..9F, then one more: no surrogates *)
| AfterF0      (* 90..BF, then two more: no overlong 4-byte form *)
| AfterF4.     (* 80..8F, then two more: nothing above U+10FFFF *)

Definition between (lo hi b : N) : bool := ((lo <=? b) && (b <=? hi))%N.

Definition step (s : state) (b : N) : option state :=
  match s with
  | Start =>
      if between 0x00 0x7F b then Some Start
      else if between 0xC2 0xDF b then Some Tail1
      else if (b =? 0xE0)%N then Some AfterE0
      else if between 0xE1 0xEC b then Some Tail2
      else if (b =? 0xED)%N then Some AfterED
      else if between 0xEE 0xEF b then Some Tail2
      else if (b =? 0xF0)%N then Some AfterF0
      else if between 0xF1 0xF3 b then Some Tail3
      else if (b =? 0xF4)%N then Some AfterF4
      else None
  | Tail1 => if between 0x80 0xBF b then Some Start else None
  | Tail2 => if between 0x80 0xBF b then Some Tail1 else None
  | Tail3 => if between 0x80 0xBF b then Some Tail2 else None
  | AfterE0 => if between 0xA0 0xBF b then Some Tail1 else None
  | AfterED => if between 0x80 0x9F b then Some Tail1 else None
  | AfterF0 => if between 0x90 0xBF b then Some Tail2 else None
  | AfterF4 => if between 0x80 0x8F b then Some Tail2 else None
  end.

Fixpoint run (s : state) (bs : string) : bool :=
  match bs with
  | EmptyString => match s with Start => true | _ => false end
  | String c rest =>
      match step s (N_of_ascii c) with
      | Some s' => run s' rest
      | None => false
      end
  end.

Definition valid (bs : string) : bool := run Start bs.

End Utf8.

(** ** Exceptions, outcomes and the world *)

Inductive exn :=
| AttributeError (owner attr : string)  (* 'owner' object has no attribute 'attr' *)
| TypeError
| ValueError
| UnicodeDecodeError
| RecursionError
| DataError                             (* redis.exceptions.DataError *)
| ResponseError (msg : string).         (* redis.exceptions.ResponseError *)

Inductive outcome (A : Type) :=
| Return (a : A)
| Raise (e : exn).
Arguments Return {A} a.
Arguments Raise {A} e.

(** What a Redis key holds: a string value or a list of string values. *)
Inductive rvalue :=
| RString (b : string)
| RList (l : list string).

Record world := World {
  db : gmap string rvalue;   (* the selected Redis database *)
  drawn : nat;               (* identifiers drawn from uuid4 so far *)
  stdout : list string       (* lines printed so far, oldest first *)
}.

Definition with_db (w : world) (d : gmap string rvalue) : world :=
  {| db := d; drawn := drawn w; stdout := stdout w |}.

(** A computation runs in a world and returns or raises; the world
    it leaves behind is kept in both cases (nothing is rolled back). *)
Definition M (A : Type) : Type := world -> outcome A * world.

Definition ret {A} (a : A) : M A := fun w => (Return a, w).

Definition raise {A} (e : exn) : M A := fun w => (Raise e, w).

Definition bind {A B} (m : M A) (k : A -> M B) : M B :=
  fun w =>
    match m w with
    | (Return a, w') => k a w'
    | (Raise e, w') => (Raise e, w')
    end.

Notation "'let*' x ':=' m 'in' k" := (bind m (fun x => k))
  (at level 10, x name, m at level 100, k at level 200).
Notation "m1 ';;' m2" := (bind m1 (fun _ => m2))
  (at level 100, m2 at level 200, right associativity).

Definition with_stdout (w : world) (lines : list string) : world :=
  {| db := db w; drawn := drawn w; stdout := lines |}.

Definition print (line : string) : M unit :=
  fun w => (Return tt, with_stdout w (stdout w ++ [line])).

(** ** Decimal text *)

Definition dec (z : Z) : string := NilZero.string_of_int (Z.to_int z).

Definition LLONG_MIN : Z := - 2 ^ 63.
Definition LLONG_MAX : Z := 2 ^ 63 - 1.

(** Redis reads a value as a counter only if it is the canonical
    decimal text of a signed 64-bit integer (no sign [+], no leading
    zeros, no spaces, no [-0]). *)
Definition redis_int_of_string (s : string) : option Z :=
  match NilZero.int_of_string s with
  | Some d =>
      let z := Z.of_int d in
      if (String.eqb (dec z) s && Z.leb LLONG_MIN z && Z.leb z LLONG_MAX)%bool
      then Some z else None
  | None => None
  end.

(** ** The builtin [int] on a bytes object

    [int(b)] strips ASCII white space on both sides, reads an optional
    sign and then decimal digits, where single underscores may separate
    digits; anything else is a [ValueError].  So is text of more than
    [max_str_digits] digits: the interpreter does not convert between
    an int and decimal text beyond that length. *)

Definition max_str_digits : Z := 4300.

Definition is_space (c : ascii) : bool :=
  let n := N_of_ascii c in ((n =? 32) || ((9 <=? n) && (n <=? 13)))%N.

Definition is_digit (c : ascii) : bool :=
  let n := N_of_ascii c in ((48 <=? n) && (n <=? 57))%N.

Definition digit_value (c : ascii) : Z := Z.of_N (N_of_ascii c) - 48.

Fixpoint lstrip (s : string) : string :=
  match s with
  | String c rest => if is_space c then lstrip rest else s
  | EmptyString => EmptyString
  end.

Definition strip (s : string) : string :=
  String.rev (lstrip (String.rev (lstrip s))).

Fixpoint read_digits (acc : Z) (after_digit : bool) (s : string) : option Z :=
  match s with
  | EmptyString => if after_digit then Some acc else None
  | String c rest =>
      if is_digit c then read_digits (10 * acc + digit_value c) true rest
      else if Ascii.eqb c "_" then
        if after_digit then read_digits acc false rest else None
      else None
  end.

Fixpoint count_digits (s : string) : Z :=
  match s with
  | EmptyString => 0
  | String c rest => (if is_digit c then 1 else 0) + count_digits rest
  end.

Definition int_of_bytes (b : string) : option Z :=
  if max_str_digits <? count_digits (strip b) then None
  else
    match strip b with
    | String "-" rest => Z.opp <$> read_digits 0 false rest
    | String "+" rest => read_digits 0 false rest
    | s => read_digits 0 false s
    end.

(** ** Builtins left abstract

    The floating-point numbers, the text [repr] gives for a float, a
    str or a bytes object, and the identifiers [uuid.uuid4] draws are
    not fixed by the program; they are taken as given. *)

Class Builtins := {
  pyfloat : Type;
  repr_float : pyfloat -> string;    (* repr(x) for a float x *)
  repr_str : string -> string;       (* repr(s) for a str s *)
  repr_bytes : string -> string;     (* repr(b) for a bytes b *)
  uuid4_str : nat -> string          (* str(uuid.uuid4()), n-th draw *)
}.

(** One way to fill them in, used to run the program on examples:
    the only floats are the three special ones, [repr] quotes its
    argument as Python does for text made of letters and digits, and
    the n-th identifier drawn has n for its last group. *)
Inductive special_float := Inf | NegInf | NaN.

Definition sample_builtins : Builtins := {|
  pyfloat := special_float;
  repr_float := fun x => match x with Inf => "inf" | NegInf => "-inf" | NaN => "nan" end;
  repr_str := fun s => "'" +:+ s +:+ "'";
  repr_bytes := fun b => "b'" +:+ b +:+ "'";
  uuid4_str := fun n =>
    let d := dec (Z.of_nat n) in
    "00000000-0000-4000-8000-" +:+
    String.concat "" (replicate (12 - String.length d) "0") +:+ d
|}.

Section Exercise.

Context `{Builtins}.

(** The values the program handles: what [store] is documented to
    take (str, bytes, int, float) and [None]. *)
Inductive pyval :=
| PNone
| PStr (s : string)
| PBytes (b : string)
| PInt (z : Z)
| PFloat (x : pyfloat).

(** The text of [repr(v)].  For an int it is the decimal text, which
    the interpreter gives up to [max_str_digits] digits (see
    [repr_defined] below). *)
Definition repr (v : pyval) : string :=
  match v with
  | PNone => "None"
  | PStr s => repr_str s
  | PBytes b => repr_bytes b
  | PInt z => dec z
  | PFloat x => repr_float x
  end.

(** Whether [repr(v)] can be computed.  It can but for an int whose
    decimal text has more than [max_str_digits] digits, where the
    interpreter raises [ValueError]; [repr] above gives the text in
    the other cases. *)
Definition repr_defined (v : pyval) : bool :=
  match v with
  | PInt z => Z.abs z <? 10 ^ max_str_digits
  | _ => true
  end.

(** [str(t)] for a tuple [t], as for the positional arguments of a
    call. *)
Definition str_tuple (t : list pyval) : string :=
  match t with
  | [a] => "(" +:+ repr a +:+ ",)"
  | _ => "(" +:+ String.concat ", " (map repr t) +:+ ")"
  end.

(** [str(uuid.uuid4())] *)
Definition uuid4 : M string :=
  fun w => (Return (uuid4_str (drawn w)),
            {| db := db w; drawn := S (drawn w); stdout := stdout w |}).

(** [b.decode("utf-8")] on a bytes object *)
Definition decode (b : string) : M string :=
  if Utf8.valid b then ret b else raise UnicodeDecodeError.

(** ** The Redis client ([redis.Redis()], replies left as bytes) *)

Definition WRONGTYPE : exn :=
  ResponseError "WRONGTYPE Operation against a key holding the wrong kind of value".

(** How the client turns an argument into bytes before sending it:
    bytes go unchanged, text is encoded, numbers are sent as the text
    of their [repr] (an int being one that has such a text, see
    [repr_defined]); anything else is refused. *)
Definition redis_encode (v : pyval) : option string :=
  match v with
  | PBytes b => Some b
  | PStr s => Some s
  | PInt z => Some (dec z)
  | PFloat x => Some (repr_float x)
  | PNone => None
  end.

Definition encode_or_raise (v : pyval) : M string :=
  match redis_encode v with
  | Some b => ret b
  | None => raise DataError
  end.

Definition redis_flushdb : M unit :=
  fun w => (Return tt, with_db w ∅).

Definition redis_set (key : string) (value : pyval) : M unit :=
  let* b := encode_or_raise value in
  fun w => (Return tt, with_db w (<[key := RString b]> (db w))).

Definition redis_get (key : string) : M (option string) :=
  fun w =>
    match db w !! key with
    | None => (Return None, w)
    | Some (RString b) => (Return (Some b), w)
    | Some (RList _) => (Raise WRONGTYPE, w)
    end.

(** The integer a key counts as: [0] when absent. *)
Definition counter_value (d : gmap string rvalue) (key : string) : option Z :=
  match d !! key with
  | None => Some 0
  | Some (RString b) => redis_int_of_string b
  | Some (RList _) => None
  end.

Definition redis_incr (key : string) : M Z :=
  fun w =>
    match db w !! key with
    | Some (RList _) => (Raise WRONGTYPE, w)
    | _ =>
        match counter_value (db w) key with
        | None => (Raise (ResponseError "value is not an integer or out of range"), w)
        | Some n =>
            if n =? LLONG_MAX
            then (Raise (ResponseError "increment or decrement would overflow"), w)
            else (Return (n + 1), with_db w (<[key := RString (dec (n + 1))]> (db w)))
        end
    end.

Definition redis_rpush (key : string) (value : pyval) : M Z :=
  let* b := encode_or_raise value in
  fun w =>
    match db w !! key with
    | None => (Return 1, with_db w (<[key := RList [b]]> (db w)))
    | Some (RList l) =>
        (Return (Z.of_nat (length l) + 1), with_db w (<[key := RList (l ++ [b])]> (db w)))
    | Some (RString _) => (Raise WRONGTYPE, w)
    end.

(** The elements of [l] from index [start] to index [stop], both
    included; a negative index counts from the end. *)
Definition lrange_slice (l : list string) (start stop : Z) : list string :=
  let llen := Z.of_nat (length l) in
  let start := if start <? 0 then llen + start else start in
  let stop := if stop <? 0 then llen + stop else stop in
  let start := if start <? 0 then 0 else start in
  if (start >? stop) || (start >=? llen) then []
  else
    let stop := if stop >=? llen then llen - 1 else stop in
    take (Z.to_nat (stop - start + 1)) (drop (Z.to_nat start) l).

Definition redis_lrange (key : string) (start stop : Z) : M (list string) :=
  fun w =>
    match db w !! key with
    | None => (Return [], w)
    | Some (RList l) => (Return (lrange_slice l start stop), w)
    | Some (RString _) => (Raise WRONGTYPE, w)
    end.

(** ** Function objects, methods and instances *)

(** The value of an attribute read by the program: a piece of text,
    or a Redis client. *)
Inductive pyattr :=
| AStr (s : string)
| ARedis.

(** What [replay] can see of a function: its qualified name and its
    attribute dictionary [__dict__]. *)
Record funobj := {
  qualname : string;
  fdict : gmap string pyattr
}.

(** What a call passes besides [self]: positional arguments
    ([*args]) and keyword arguments ([**kwargs]). *)
Record arguments := {
  args : list pyval;
  kwargs : list (string * pyval)
}.

Definition positional (values : list pyval) : arguments :=
  {| args := values; kwargs := [] |}.

(** An instance as the methods see it through [self]: [self._redis]
    is the one database of the world, and [self.store] is whatever the
    name [store] resolves to, bound to the instance. *)
Record instance := {
  self_store : arguments -> M pyval
}.

(** A function taking [self] and arguments. *)
Record pyfunc := {
  fobj :> funobj;
  code : instance -> arguments -> M pyval
}.

(** A [def] statement creates a function with an empty [__dict__]. *)
Definition fn (name : string) : funobj :=
  {| qualname := name; fdict := ∅ |}.

Definition def (name : string) (body : instance -> arguments -> M pyval) : pyfunc :=
  {| fobj := fn name; code := body |}.

(** Binding the arguments of a call to the parameters [(self, data)]. *)
Definition params_self_data (body : instance -> pyval -> M pyval)
    : instance -> arguments -> M pyval :=
  fun self actual =>
    match args actual, kwargs actual with
    | [data], [] => body self data
    | [], [(name, data)] =>
        if String.eqb name "data" then body self data else raise TypeError
    | _, _ => raise TypeError
    end.

(** ** class Cache *)

(** [Cache.store], first definition: the one that writes. *)
Definition store : pyfunc :=
  def "Cache.store" (params_self_data (fun self data =>
    let* key := uuid4 in
    redis_set key data ;;
    ret (PStr key))).

(** A callable passed as [fn]: what [if fn:] makes of it, and what
    calling it on bytes does.  Functions and types are true; a
    callable object can define itself false. *)
Record converter := {
  truth : bool;
  call : string -> M pyval
}.

Definition get (key : string) (fn : option converter) : M pyval :=
  let* value := redis_get key in
  match value with
  | None => ret PNone
  | Some value =>
      match fn with
      | Some fn => if truth fn then call fn value else ret (PBytes value)
      | None => ret (PBytes value)
      end
  end.

(** [lambda d: d.decode("utf-8")] *)
Definition decode_utf8 : converter :=
  {| truth := true;
     call := fun d => let* s := decode d in ret (PStr s) |}.

(** The builtin [int], applied to bytes. *)
Definition int : converter :=
  {| truth := true;
     call := fun b =>
       match int_of_bytes b with
       | Some z => ret (PInt z)
       | None => raise ValueError
       end |}.

Definition get_str (key : string) : M pyval := get key (Some decode_utf8).

Definition get_int (key : string) : M pyval := get key (Some int).

Definition count_calls (method : pyfunc) : pyfunc :=
  def "Cache.count_calls.<locals>.wrapper" (fun self actual =>
    let key := qualname method in
    redis_incr key ;;
    code method self actual).

(** The body shared by the second and the third definition of
    [store]: [return self.store(data)]. *)
Definition store_again : pyfunc :=
  def "Cache.store" (params_self_data (fun self data =>
    self_store self (positional [data]))).

(** [Cache.store], second definition. *)
Definition store_counted : pyfunc := count_calls store_again.

Definition call_history (method : pyfunc) : pyfunc :=
  def "Cache.call_history.<locals>.wrapper" (fun self actual =>
    let inputs_key := qualname method +:+ ":inputs" in
    let outputs_key := qualname method +:+ ":outputs" in
    redis_rpush inputs_key (PBytes (str_tuple (args actual))) ;;
    let* output := code method self actual in
    redis_rpush outputs_key output ;;
    ret output).

(** [Cache.store], third definition. *)
Definition store_logged : pyfunc := call_history store_again.

(** The class body binds the name [store] three times, in this order;
    each binding replaces the one before. *)
Definition Cache_body : list (string * pyfunc) :=
  [("store", store); ("store", store_counted); ("store", store_logged)].

Definition class_of (body : list (string * pyfunc)) : gmap string pyfunc :=
  foldl (fun ns d => <[d.1 := d.2]> ns) ∅ body.

Definition Cache : gmap string pyfunc := class_of Cache_body.

(** An instance of class [cls] that may nest [depth] calls through
    [self.store] before the interpreter gives up. *)
Fixpoint instance_of (cls : gmap string pyfunc) (depth : nat) : instance :=
  {| self_store := fun actual =>
       match depth with
       | O => raise RecursionError
       | S d =>
           match cls !! "store" with
           | Some f => code f (instance_of cls d) actual
           | None => raise (AttributeError "Cache" "store")
           end
       end |}.

(** [Cache()]: [__init__] connects and flushes the database. *)
Definition Cache_new (depth : nat) : M instance :=
  redis_flushdb ;;
  ret (instance_of Cache depth).

(** The function every name of the class is bound to when the class
    body ends. *)
Definition Cache_functions : list funobj :=
  [ fn "Cache.__init__"; fobj store_logged; fn "Cache.get";
    fn "Cache.get_str"; fn "Cache.get_int";
    fn "Cache.count_calls"; fn "Cache.call_history" ].

(** ** replay *)

(** What can be passed to [replay]: a function, or a method bound to
    an instance.  A bound method has no attribute dictionary of its
    own; a name it does not know is looked up in its function. *)
Inductive pyobj :=
| Function (f : funobj)
| BoundMethod (f : funobj).

Definition function_of (o : pyobj) : funobj :=
  match o with Function f | BoundMethod f => f end.

Definition getattr (o : pyobj) (name : string) : M pyattr :=
  if String.eqb name "__qualname__" then ret (AStr (qualname (function_of o)))
  else
    match fdict (function_of o) !! name with
    | Some a => ret a
    | None => raise (AttributeError "function" name)
    end.

(** [r.get(key)] and [r.lrange(key, start, stop)] for an attribute
    value [r]. *)
Definition attr_get (r : pyattr) (key : string) : M (option string) :=
  match r with
  | ARedis => redis_get key
  | AStr _ => raise (AttributeError "str" "get")
  end.

Definition attr_lrange (r : pyattr) (key : string) (start stop : Z) : M (list string) :=
  match r with
  | ARedis => redis_lrange key start stop
  | AStr _ => raise (AttributeError "str" "lrange")
  end.

(** [v.decode("utf-8")] for what [get] replied. *)
Definition decode_reply (v : option string) : M string :=
  match v with
  | Some b => decode b
  | None => raise (AttributeError "NoneType" "decode")
  end.

Definition replay_line (key input output : string) : string :=
  key +:+ "(*" +:+ input +:+ ") -> " +:+ output.

Fixpoint replay_loop (key : string) (pairs : list (string * string)) : M unit :=
  match pairs with
  | [] => ret tt
  | (input, output) :: rest =>
      let* i := decode input in
      let* o := decode output in
      print (replay_line key i o) ;;
      replay_loop key rest
  end.

Definition replay (method : pyobj) : M unit :=
  let key := qualname (function_of method) in
  let* r := getattr method "_redis" in
  let* v := attr_get r key in
  let* count := decode_reply v in
  let* r := getattr method "_redis" in
  let* inputs := attr_lrange r (key +:+ ":inputs") 0 (-1) in
  let* r := getattr method "_redis" in
  let* outputs := attr_lrange r (key +:+ ":outputs") 0 (-1) in
  print (key +:+ " was called " +:+ count +:+ " times:") ;;
  replay_loop key (zip inputs outputs).

(** The entries of the list at [key], as [lrange key 0 -1] gives
    them when the key is absent or holds a list. *)
Definition history (d : gmap string rvalue) (key : string) : list string :=
  match d !! key with
  | Some (RList l) => l
  | _ => []
  end.

End Exercise.

(** ** Worlds and objects to run the program on *)

Definition empty_world : world := World ∅ 0 [].

(** A function named [Cache.store] that was given the attribute
    [_redis], so that [replay] gets as far as the database. *)
Definition store_with_client : pyobj :=
  Function {| qualname := "Cache.store"; fdict := {[ "_redis" := ARedis ]} |}.

(** The database after three recorded calls of an operation named
    [Cache.store]. *)
Definition three_calls_world : world :=
  World (<["Cache.store" := RString "3"]>
         (<["Cache.store:inputs" := RList ["('foo',)"; "('bar',)"; "(42,)"]]>
          (<["Cache.store:outputs" := RList ["key-1"; "key-2"; "key-3"]]> ∅)))
        3 [].

(** One recorded call whose output is the single byte FF, which is
    not UTF-8. *)
Definition undecodable_output_world : world :=
  World (<["Cache.store" := RString "1"]>
         (<["Cache.store:inputs" := RList ["('foo',)"]]>
          (<["Cache.store:outputs" := RList [String (ascii_of_N 255) ""]]> ∅)))
        1 [].


(** The first identifier [sample_builtins] draws, and the world after
    storing 42 under it. *)
Definition first_key : string := "00000000-0000-4000-8000-000000000000".

Definition stored_42_world : world :=
  World {[ first_key := RString "42" ]} 1 [].


Definition one_input_world : world :=
  World {[ "Cache.store:inputs" := RList ["('foo',)"] ]} 0 [].

(** Whether every character of a string passes a test. *)
Fixpoint all_chars (test : ascii -> bool) (s : string) : bool :=
  match s with
  | EmptyString => true
  | String c rest => test c && all_chars test rest
  end.

(** ** Calling in a row *)

Section Callers.

Context `{Builtins}.

(** The world after [n] calls [call] made one after the other by a
    caller that goes on whether a call returns or raises. *)
Fixpoint after_calls (n : nat) (call : M pyval) (w : world) : world :=
  match n with
  | O => w
  | S k => after_calls k call (call w).2
  end.

(** [k1 = cache.store(d1); k2 = cache.store(d2)] with the first
    definition of [store], giving back both results. *)
Definition store_two (self : instance) (d1 d2 : pyval) : M (pyval * pyval) :=
  let* k1 := code store self (positional [d1]) in
  let* k2 := code store self (positional [d2]) in
  ret (k1, k2).

(** A method that does nothing and returns [None]. *)
Definition returns_None : pyfunc :=
  def "Cache.touch" (fun self actual => ret PNone).

End Callers.

(** A database where the inputs log key of [Cache.store] holds a
    string, and one where the counter key holds text that is no
    number. *)
Definition string_at_inputs_world : world :=
  World {[ "Cache.store:inputs" := RString "x" ]} 0 [].

Definition text_at_counter_world : world :=
  World {[ "Cache.store" := RString "many" ]} 0 [].


(** Three recorded calls under the name the class's [store] goes
    by, the name of the history wrapper. *)
Definition three_wrapper_calls_world : world :=
  World (<["Cache.call_history.<locals>.wrapper" := RString "3"]>
         (<["Cache.call_history.<locals>.wrapper:inputs" :=
              RList ["('foo',)"; "('bar',)"; "(42,)"]]>
          (<["Cache.call_history.<locals>.wrapper:outputs" :=
               RList ["key-1"; "key-2"; "key-3"]]> ∅)))
        3 [].

(** A database where the key [log] holds a list. *)
Definition world_with_list : world :=
  World {[ "log" := RList ["a"; "b"] ]} 0 [].

(** The second identifier [sample_builtins] draws. *)
Definition second_key : string := "00000000-0000-4000-8000-000000000001".

(** The empty world after storing the text foo, and after doing so
    through the history wrapper, before the output is logged. *)
Definition stored_foo_world : world :=
  World {[ first_key := RString "foo" ]} 1 [].

Definition stored_foo_logged_world : world :=
  World (<[first_key := RString "foo"]>
         {[ "Cache.store:inputs" := RList ["('foo',)"] ]}) 1 [].

(** The empty world after the history wrapper logged a call without
    arguments of a function named [Cache.touch]. *)
Definition touch_logged_world : world :=
  World {[ "Cache.touch:inputs" := RList ["()"] ]} 0 [].

(** Two recorded calls, the second with an output that is not
    UTF-8. *)
Definition second_output_bad_world : world :=
  World (<["Cache.store" := RString "2"]>
         (<["Cache.store:inputs" := RList ["('foo',)"; "('bar',)"]]>
          (<["Cache.store:outputs" := RList ["key-1"; String (ascii_of_N 255) ""]]> ∅)))
        2 [].

(** * Properties *)

Section Properties.

Context `{Builtins}.

(** ** The environment *)

Lemma bind_return {A B} (m : M A) (k : A -> M B) w a w' :
  m w = (Return a, w') -> bind m k w = k a w'.
Proof. intros E. unfold bind. now rewrite E. Qed.

Lemma bind_raise {A B} (m : M A) (k : A -> M B) w e w' :
  m w = (Raise e, w') -> bind m k w = (Raise e, w').
Proof. intros E. unfold bind. now rewrite E. Qed.

(** Run the first computation of a sequence, given what it does. *)
Ltac step E :=
  first [ rewrite (bind_return _ _ _ _ _ E) | rewrite (bind_raise _ _ _ _ _ E) ].

Lemma redis_get_string key b w :
  db w !! key = Some (RString b) -> redis_get key w = (Return (Some b), w).
Proof. intros E. unfold redis_get. now rewrite E. Qed.

Lemma redis_get_absent key w :
  db w !! key = None -> redis_get key w = (Return None, w).
Proof. intros E. unfold redis_get. now rewrite E. Qed.

Lemma lrange_slice_all (l : list string) : lrange_slice l 0 (-1) = l.
Proof.
  unfold lrange_slice. cbv zeta.
  change (0 <? 0) with false. change (-1 <? 0) with true. cbv iota.
  change (0 <? 0) with false. cbv iota.
  set (llen := Z.of_nat (length l)).
  assert (Hl : llen = Z.of_nat (length l)) by reflexivity.
  rewrite Z.gtb_ltb, !Z.geb_leb.
  destruct (Z.ltb_spec (llen + -1) 0) as [Hlt|Hge].
  - destruct l; [reflexivity | simpl in Hl; lia].
  - destruct (Z.leb_spec llen 0); [lia|].
    destruct (Z.leb_spec llen (llen + -1)); [lia|]. cbn [orb].
    replace (Z.to_nat (llen + -1 - 0 + 1)) with (length l) by lia.
    change (Z.to_nat 0) with 0%nat. rewrite drop_0. apply firstn_all.
Qed.

(** [lrange key 0 -1] gives the whole list unless the key holds a
    string. *)
Lemma redis_lrange_all key w :
  (forall b, db w !! key <> Some (RString b)) ->
  redis_lrange key 0 (-1) w = (Return (history (db w) key), w).
Proof.
  intros Hstr. unfold redis_lrange, history.
  destruct (db w !! key) as [[b|l]|] eqn:E.
  - now destruct (Hstr b).
  - now rewrite lrange_slice_all.
  - reflexivity.
Qed.

(** ** get, get_str, get_int *)

(** C3.  For a key the store does not hold, [get] returns [None]
    whether a converter is passed or not, and whatever the converter
    would do (return, raise, write) does not happen: the world is left
    as it was. *)
Theorem get_absent_key_is_None (key : string) (fn : option converter) (w : world) :
  db w !! key = None ->
  get key fn w = (Return PNone, w).
Proof.
  intros E. unfold get.
  now step (redis_get_absent _ _ E).
Qed.


(** ** Counters *)

Lemma redis_int_of_dec (z : Z) :
  LLONG_MIN <= z <= LLONG_MAX -> redis_int_of_string (dec z) = Some z.
Proof.
  intros [Hlo Hhi]. unfold redis_int_of_string, dec.
  rewrite NilZero.isi.
  - rewrite DecimalZ.of_to, String.eqb_refl.
    destruct (Z.leb_spec LLONG_MIN z); [|lia].
    destruct (Z.leb_spec z LLONG_MAX); [reflexivity|lia].
  - destruct z; simpl; try discriminate.
    intros [= E]. now apply Unsigned.to_uint_nonnil in E.
  - destruct z; simpl; try discriminate.
    intros [= E]. now apply Unsigned.to_uint_nonnil in E.
Qed.

Lemma redis_int_of_string_range (s : string) (z : Z) :
  redis_int_of_string s = Some z -> LLONG_MIN <= z <= LLONG_MAX /\ s = dec z.
Proof.
  unfold redis_int_of_string.
  destruct (NilZero.int_of_string s) as [d|]; [|discriminate].
  destruct (String.eqb_spec (dec (Z.of_int d)) s) as [E|]; [|discriminate].
  destruct (Z.leb_spec LLONG_MIN (Z.of_int d)); [|discriminate].
  destruct (Z.leb_spec (Z.of_int d) LLONG_MAX); [|discriminate].
  cbn. intros [= <-]. auto.
Qed.

Lemma counter_value_range d key n :
  counter_value d key = Some n -> LLONG_MIN <= n <= LLONG_MAX.
Proof.
  unfold counter_value. destruct (d !! key) as [[b|l]|]; [|discriminate|].
  - intros E. now apply redis_int_of_string_range in E.
  - intros [= <-]. unfold LLONG_MIN, LLONG_MAX. lia.
Qed.

Lemma redis_incr_counter key w n :
  counter_value (db w) key = Some n -> n < LLONG_MAX ->
  redis_incr key w =
    (Return (n + 1), with_db w (<[key := RString (dec (n + 1))]> (db w))).
Proof.
  intros Hn Hmax. unfold redis_incr.
  assert (Hl : forall l, db w !! key <> Some (RList l)).
  { intros l E. unfold counter_value in Hn. now rewrite E in Hn. }
  rewrite Hn. destruct (Z.eqb_spec n LLONG_MAX); [lia|].
  destruct (db w !! key) as [[b|l]|]; [reflexivity| |reflexivity].
  now destruct (Hl l).
Qed.

(** ** The decorators *)


Lemma redis_rpush_returns key v w n w1 :
  redis_rpush key v w = (Return n, w1) ->
  exists b, redis_encode v = Some b /\
    w1 = with_db w (<[key := RList (history (db w) key ++ [b])]> (db w)) /\
    forall s, db w !! key <> Some (RString s).
Proof.
  unfold redis_rpush, bind, encode_or_raise, history.
  destruct (redis_encode v) as [b|]; cbn; [|discriminate].
  destruct (db w !! key) as [[s|l]|]; intros [= <- <-]; exists b; auto.
Qed.

(** C6 (amended).  When the wrapped operation raises, the wrapper
    raises the same exception and leaves the world as the operation
    left it: nothing is appended to the outputs log.  The entry the
    wrapper appended to the inputs log before the call is not taken
    back. *)
Theorem call_history_when_method_raises
    (method : pyfunc) (self : instance) (actual : arguments)
    (w w1 w2 : world) (n : Z) (e : exn) :
  redis_rpush (qualname method +:+ ":inputs") (PBytes (str_tuple (args actual))) w =
    (Return n, w1) ->
  code method self actual w1 = (Raise e, w2) ->
  history (db w1) (qualname method +:+ ":inputs") =
    (history (db w) (qualname method +:+ ":inputs") ++ [str_tuple (args actual)])%list /\
  code (call_history method) self actual w = (Raise e, w2).
Proof.
  intros Hpush Hraise. split.
  - apply redis_rpush_returns in Hpush as (b & [= <-] & -> & _).
    unfold history at 1. cbn. now rewrite lookup_insert_eq.
  - cbn. step Hpush.
    now step Hraise.
Qed.

(** ** replay *)

(** C9.  When the key named after the method is absent, [replay]
    raises and prints nothing: it never goes on with a count of zero.
    The exception is an [AttributeError]; for a method object that
    carries the Redis client it is the one raised by calling [decode]
    on the [None] that [get] replied. *)
Theorem replay_absent_counter_raises (method : pyobj) (w : world) :
  db w !! qualname (function_of method) = None ->
  exists owner attr,
    replay method w = (Raise (AttributeError owner attr), w) /\
    (fdict (function_of method) !! "_redis" = Some ARedis ->
     owner = "NoneType" /\ attr = "decode").
Proof.
  intros Hk. unfold replay, getattr. cbn.
  destruct (fdict (function_of method) !! "_redis") as [[s|]|] eqn:Hr.
  - exists "str", "get". split; [reflexivity|discriminate].
  - exists "NoneType", "decode". split; [|auto].
    unfold bind, ret, attr_get, redis_get. now rewrite Hk.
  - exists "function", "_redis". split; [reflexivity|discriminate].
Qed.

(** C10.  Passing [replay] a method bound to a [Cache] instance
    raises [AttributeError] at [method._redis], whatever the database
    holds; nothing is printed.  No function of the class has an
    attribute [_redis]: it is set on the instance. *)
Theorem replay_bound_method_raises (f : funobj) (w : world) :
  f ∈ Cache_functions ->
  replay (BoundMethod f) w = (Raise (AttributeError "function" "_redis"), w).
Proof.
  intros Hf. assert (E : fdict f = ∅).
  { unfold Cache_functions in Hf.
    repeat (apply elem_of_cons in Hf as [->|Hf]; [reflexivity|]).
    now apply elem_of_nil in Hf. }
  unfold replay, getattr. cbn. rewrite E, lookup_empty. reflexivity.
Qed.

(** C8 (the code falls short of it).  [replay] is meant to be passed
    a method of the class, and each of them, passed as the function or
    bound to an instance, makes it raise [AttributeError] at
    [method._redis]: whatever counter and logs the database holds
    under the name of the method, nothing is read and nothing is
    printed. *)
Theorem replay_of_class_function_prints_nothing
    (f : funobj) (method : pyobj) (w : world) :
  f ∈ Cache_functions ->
  function_of method = f ->
  replay method w = (Raise (AttributeError "function" "_redis"), w).
Proof.
  intros Hf <-. assert (E : fdict (function_of method) = ∅).
  { unfold Cache_functions in Hf.
    repeat (apply elem_of_cons in Hf as [->|Hf]; [reflexivity|]).
    now apply elem_of_nil in Hf. }
  unfold replay, getattr. cbn. rewrite E, lookup_empty. reflexivity.
Qed.

Lemma replay_loop_prints key (pairs : list (string * string)) w :
  Forall (fun p => Utf8.valid p.1 = true /\ Utf8.valid p.2 = true) pairs ->
  replay_loop key pairs w =
    (Return tt,
     with_stdout w (stdout w ++ map (fun p => replay_line key p.1 p.2) pairs)%list).
Proof.
  intros Hv. revert w. induction Hv as [|[i o] pairs [Hi Ho] _ IH]; intros w.
  - cbn. rewrite app_nil_r. now destruct w.
  - cbn [fst snd] in Hi, Ho. cbn [replay_loop]. unfold bind, decode.
    rewrite Hi, Ho. cbn [ret print]. rewrite IH.
    unfold with_stdout. cbn [db drawn stdout map fst snd].
    now rewrite <- app_assoc.
Qed.

Lemma Forall_valid_zip (inputs outputs : list string) :
  Forall (fun b => Utf8.valid b = true) inputs ->
  Forall (fun b => Utf8.valid b = true) outputs ->
  Forall (fun p => Utf8.valid p.1 = true /\ Utf8.valid p.2 = true) (zip inputs outputs).
Proof.
  intros Hi. revert outputs. induction Hi as [|i inputs Hi _ IH]; intros outputs Ho.
  - constructor.
  - destruct Ho as [|o outputs Ho Hos]; cbn; constructor; auto.
Qed.

(** X20.  For a method object that carries the Redis client
    in its attribute [_redis]: when the key named after it holds the
    text [count], the two logs read [inputs] and [outputs], and all of
    these are valid UTF-8, [replay] prints the line
    [<name> was called <count> times:] and then, for each pair of the
    two logs zipped in log order, the line [replay_line] builds from
    the name, the input and the output; it returns and leaves the
    database as it was. *)
Theorem replay_prints_count_then_pairs
    (method : pyobj) (count : string) (inputs outputs : list string) (w : world) :
  let name := qualname (function_of method) in
  fdict (function_of method) !! "_redis" = Some ARedis ->
  db w !! name = Some (RString count) ->
  redis_lrange (name +:+ ":inputs") 0 (-1) w = (Return inputs, w) ->
  redis_lrange (name +:+ ":outputs") 0 (-1) w = (Return outputs, w) ->
  Utf8.valid count = true ->
  Forall (fun b => Utf8.valid b = true) inputs ->
  Forall (fun b => Utf8.valid b = true) outputs ->
  replay method w =
    (Return tt,
     with_stdout w
       (stdout w ++
        (name +:+ " was called " +:+ count +:+ " times:") ::
        map (fun p => replay_line name p.1 p.2) (zip inputs outputs))%list).
Proof.
  intros name Hr Hc Hin Hout Vc Vi Vo. unfold replay, getattr. cbn.
  fold name. rewrite Hr. cbn.
  step (redis_get_string _ _ _ Hc).
  unfold decode_reply, decode. rewrite Vc. cbn.
  step Hin. cbn.
  step Hout.
  unfold bind at 1. cbn.
  rewrite (replay_loop_prints _ _ _ (Forall_valid_zip _ _ Vi Vo)). cbn.
  now rewrite <- app_assoc.
Qed.

(** ** store *)

Lemma Cache_store_is_store_logged : Cache !! "store" = Some store_logged.
Proof. unfold Cache, class_of, Cache_body. cbn [foldl fst snd]. apply lookup_insert_eq. Qed.

Lemma self_store_S cls depth actual :
  self_store (instance_of cls (S depth)) actual =
    match cls !! "store" with
    | Some f => code f (instance_of cls depth) actual
    | None => raise (AttributeError "Cache" "store")
    end.
Proof. reflexivity. Qed.

Lemma redis_rpush_drawn key v w r w1 :
  redis_rpush key v w = (r, w1) -> drawn w1 = drawn w.
Proof.
  unfold redis_rpush, bind, encode_or_raise.
  destruct (redis_encode v); cbn; [|now intros [= <- <-]].
  destruct (db w !! key) as [[b0|l0]|]; now intros [= <- <-].
Qed.

Lemma redis_incr_drawn key w r w1 :
  redis_incr key w = (r, w1) -> drawn w1 = drawn w.
Proof.
  unfold redis_incr.
  destruct (db w !! key) as [[b0|l0]|]; try now intros [= <- <-].
  all: destruct (counter_value (db w) key) as [n|]; try now intros [= <- <-].
  all: destruct (n =? LLONG_MAX); now intros [= <- <-].
Qed.

(** Through the name [store] of the class, no call comes back with a
    result, and the first definition is never entered: no identifier
    is drawn. *)
Lemma self_store_never_returns depth actual w :
  exists e w', self_store (instance_of Cache depth) actual w = (Raise e, w') /\
               drawn w' = drawn w.
Proof.
  revert actual w. induction depth as [|depth IH]; intros actual w.
  - exists RecursionError, w. split; reflexivity.
  - rewrite self_store_S, Cache_store_is_store_logged.
    cbn [store_logged call_history def code].
    destruct (redis_rpush (qualname store_again +:+ ":inputs")
                (PBytes (str_tuple (args actual))) w) as [[n|e] w1] eqn:Hpush.
    + pose proof (redis_rpush_drawn _ _ _ _ _ Hpush) as Hd.
      step Hpush.
      assert (Hcall : exists e w2,
                 code store_again (instance_of Cache depth) actual w1 = (Raise e, w2) /\
                 drawn w2 = drawn w1).
      { cbn. destruct actual as [[|data [|? ?]] [|[name value] [|? ?]]]; cbn;
          try (exists TypeError, w1; split; reflexivity); [|apply IH].
        destruct (String.eqb name "data");
          [apply IH | exists TypeError, w1; split; reflexivity]. }
      destruct Hcall as (e & w2 & Hcall & Hd2).
      exists e, w2. step Hcall. split; congruence.
    + exists e, w1. step Hpush.
      split; [reflexivity|]. apply (redis_rpush_drawn _ _ _ _ _ Hpush).
Qed.

Lemma redis_rpush_bytes key b w :
  (forall s, db w !! key <> Some (RString s)) ->
  exists n, redis_rpush key (PBytes b) w =
    (Return n, with_db w (<[key := RList (history (db w) key ++ [b])]> (db w))).
Proof.
  intros Hs. unfold redis_rpush, bind, encode_or_raise, history. cbn.
  destruct (db w !! key) as [[s0|l0]|]; eauto. now destruct (Hs s0).
Qed.

(** Where the inputs log can be appended to, a call nests as deep as
    the interpreter lets it, appends one entry per level and ends in
    [RecursionError]. *)
Lemma self_store_exhausts_depth depth data w :
  let key := "Cache.store:inputs" in
  (forall s, db w !! key <> Some (RString s)) ->
  self_store (instance_of Cache (S depth)) (positional [data]) w =
    (Raise RecursionError,
     with_db w (<[key := RList (history (db w) key ++
                                replicate (S depth) (str_tuple [data]))]> (db w))).
Proof.
  intros key. revert w. induction depth as [|depth IH]; intros w Hs.
  - rewrite self_store_S, Cache_store_is_store_logged.
    cbn [store_logged call_history def code].
    destruct (redis_rpush_bytes key (str_tuple [data]) w Hs) as [n Hpush].
    change (qualname store_again +:+ ":inputs") with key.
    step Hpush. reflexivity.
  - rewrite self_store_S, Cache_store_is_store_logged.
    cbn [store_logged call_history def code].
    destruct (redis_rpush_bytes key (str_tuple [data]) w Hs) as [n Hpush].
    change (qualname store_again +:+ ":inputs") with key.
    step Hpush.
    set (w1 := with_db w _) in *.
    assert (Hs1 : forall s, db w1 !! key <> Some (RString s)).
    { intros s. unfold w1. cbn. now rewrite lookup_insert_eq. }
    assert (Hcall : code store_again (instance_of Cache (S depth)) (positional [data]) w1 =
                    self_store (instance_of Cache (S depth)) (positional [data]) w1) by reflexivity.
    step (eq_trans Hcall (IH w1 Hs1)).
    f_equal. unfold w1, with_db, history. cbn [db drawn stdout].
    rewrite lookup_insert_eq, insert_insert_eq, <- app_assoc. reflexivity.
Qed.

(** C1 (amended).  The class binds [store] to its last definition,
    the one wrapped by [call_history].  A call through that name never
    comes back with a result and never enters the first definition (no
    identifier is drawn), for all arguments, in every world and for
    every bound on the nesting of calls.  Whenever the first step of
    the wrapper can be done (the text of the argument can be computed
    and the key of the inputs log does not hold a string, as on a new
    cache), the call recurses into itself as deep as the interpreter
    lets it: for every bound it ends in [RecursionError], having
    appended one inputs entry per level. *)
Theorem Cache_store_recurses_without_end :
  Cache !! "store" = Some store_logged /\
  (forall (depth : nat) (actual : arguments) (w : world),
     exists e w', self_store (instance_of Cache depth) actual w = (Raise e, w') /\
                  drawn w' = drawn w) /\
  (forall (depth : nat) (data : pyval) (w : world),
     repr_defined data = true ->
     (forall s, db w !! "Cache.store:inputs" <> Some (RString s)) ->
     self_store (instance_of Cache (S depth)) (positional [data]) w =
       (Raise RecursionError,
        with_db w (<["Cache.store:inputs" :=
                     RList (history (db w) "Cache.store:inputs" ++
                            replicate (S depth) (str_tuple [data]))]> (db w)))).
Proof.
  split; [apply Cache_store_is_store_logged|].
  split; [apply self_store_never_returns|].
  intros depth data w _ Hs. now apply self_store_exhausts_depth.
Qed.

(** C2 (the code falls short of it).  After [Cache()] and one call
    of [store], the inputs log has one entry per level of the
    recursion, the outputs log has none and the counter key was never
    written. *)
Theorem store_leaves_logs_and_counter_unequal (depth : nat) (data : pyval) (w : world) :
  let w' := ((let* cache := Cache_new (S depth) in self_store cache (positional [data])) w).2 in
  length (history (db w') "Cache.store:inputs") = S depth /\
  length (history (db w') "Cache.store:outputs") = 0%nat /\
  db w' !! "Cache.store" = None.
Proof.
  intros w'.
  assert (E : w' = with_db w {[ "Cache.store:inputs" :=
                         RList (replicate (S depth) (str_tuple [data])) ]}).
  { unfold w', Cache_new, redis_flushdb. unfold bind at 1 2. cbn [ret].
    rewrite self_store_exhausts_depth.
    - unfold with_db, history. cbn [db drawn stdout snd]. rewrite lookup_empty.
      now rewrite insert_empty.
    - intros s. cbn. now rewrite lookup_empty. }
  rewrite E. unfold history. cbn [db with_db].
  rewrite lookup_singleton_eq, length_replicate.
  rewrite !lookup_singleton_ne by discriminate. auto.
Qed.

(** C4 (the code falls short of it).  After [Cache()], a call of
    [store] gives no key: it raises.  And in the database it leaves
    there is no key under which [get] returns bytes, so nothing that
    was passed to [store] can be read back. *)
Theorem Cache_store_gives_get_nothing (depth : nat) (data : pyval) (w : world) :
  let run := (let* cache := Cache_new (S depth) in
              self_store cache (positional [data])) w in
  (exists e, run.1 = Raise e) /\
  forall key b, get key None run.2 <> (Return (PBytes b), run.2).
Proof.
  intros run.
  assert (E : run = (Raise RecursionError,
                     with_db w {[ "Cache.store:inputs" :=
                                    RList (replicate (S depth) (str_tuple [data])) ]})).
  { unfold run, Cache_new, redis_flushdb. unfold bind at 1 2. cbn [ret].
    rewrite self_store_exhausts_depth.
    - unfold with_db, history. cbn [db drawn stdout]. rewrite lookup_empty.
      now rewrite insert_empty.
    - intros s. cbn. now rewrite lookup_empty. }
  rewrite E. cbn [fst snd]. split; [eauto|].
  intros key b. unfold get, bind, redis_get. cbn [db with_db].
  destruct (decide (key = "Cache.store:inputs")) as [->|Hne].
  - rewrite lookup_singleton_eq. discriminate.
  - rewrite lookup_singleton_ne by congruence. discriminate.
Qed.

End Properties.

(** * Further properties of the program *)

Section Further.

Context `{Builtins}.

Ltac step E :=
  first [ rewrite (bind_return _ _ _ _ _ E) | rewrite (bind_raise _ _ _ _ _ E) ].

(** ** Reading *)

Lemma redis_get_world key w : (redis_get key w).2 = w.
Proof. unfold redis_get. now destruct (db w !! key) as [[b|l]|]. Qed.

(** X1.  The three readers leave the world as it was, whatever they
    return or raise; so reading a key twice gives what reading it once
    gives. *)
Theorem readers_change_nothing (key : string) (w : world) :
  (get key None w).2 = w /\
  (get_str key w).2 = w /\
  (get_int key w).2 = w /\
  (get key None ;; get key None) w = get key None w.
Proof.
  unfold get_str, get_int, get, bind, redis_get, decode_utf8, int, decode, bind.
  destruct (db w !! key) as [[b|l]|] eqn:E; cbn; rewrite ?E; cbn; auto.
  destruct (Utf8.valid b), (int_of_bytes b); cbn; auto.
Qed.

(** X2.  On a key that holds a list, as the keys of the two logs do,
    [get] raises the Redis type error; a converter is not run. *)
Theorem get_on_list_raises (key : string) (l : list string)
    (fn : option converter) (w : world) :
  db w !! key = Some (RList l) ->
  get key fn w = (Raise WRONGTYPE, w).
Proof. intros E. unfold get, bind, redis_get. now rewrite E. Qed.

(** X3.  [Cache()] empties the database: right after it, [get]
    gives [None] for every key, also for keys that held a value
    before. *)
Theorem Cache_new_forgets_everything
    (depth : nat) (key : string) (fn : option converter) (w : world) :
  (Cache_new depth ;; get key fn) w = (Return PNone, with_db w ∅).
Proof.
  unfold Cache_new, redis_flushdb, bind, ret, get, bind, redis_get. cbn.
  now rewrite lookup_empty.
Qed.

(** ** store, first definition *)

Lemma store_runs self data w b :
  redis_encode data = Some b ->
  code store self (positional [data]) w =
    (Return (PStr (uuid4_str (drawn w))),
     {| db := <[uuid4_str (drawn w) := RString b]> (db w);
        drawn := S (drawn w); stdout := stdout w |}).
Proof.
  intros E. cbn. unfold bind, uuid4, redis_set, bind, encode_or_raise.
  now rewrite E.
Qed.

(** X4.  When the client cannot encode the argument ([None]),
    [store] raises [DataError] after it has drawn an identifier; the
    database is not written. *)
Theorem store_refuses_unencodable (self : instance) (data : pyval) (w : world) :
  redis_encode data = None ->
  code store self (positional [data]) w =
    (Raise DataError,
     {| db := db w; drawn := S (drawn w); stdout := stdout w |}).
Proof.
  intros E. cbn. unfold bind, uuid4, redis_set, bind, encode_or_raise.
  now rewrite E.
Qed.

(** X5.  Two values stored one after the other: the second is read
    back under its key, and so is the first unless the two identifiers
    drawn are the same, in which case the first value is overwritten
    (there is no check for a key in use). *)
Theorem store_two_then_get
    (self : instance) (d1 d2 : pyval) (b1 b2 : string) (w : world) :
  redis_encode d1 = Some b1 ->
  redis_encode d2 = Some b2 ->
  let k1 := uuid4_str (drawn w) in
  let k2 := uuid4_str (S (drawn w)) in
  exists w2,
    store_two self d1 d2 w = (Return (PStr k1, PStr k2), w2) /\
    get k2 None w2 = (Return (PBytes b2), w2) /\
    get k1 None w2 = (Return (PBytes (if decide (k1 = k2) then b2 else b1)), w2).
Proof.
  intros E1 E2 k1 k2. unfold store_two.
  step (store_runs self d1 w b1 E1).
  set (w1 := {| db := _ |}).
  step (store_runs self d2 w1 b2 E2).
  eexists. split; [reflexivity|]. cbn [db drawn w1].
  unfold get, bind, redis_get. cbn [db]. fold k1 k2.
  rewrite lookup_insert_eq. split; [reflexivity|].
  destruct (decide (k1 = k2)) as [->|Hne].
  - now rewrite lookup_insert_eq.
  - rewrite lookup_insert_ne by congruence. now rewrite lookup_insert_eq.
Qed.

(** ** The decorators *)

(** X6.  When the key named after the wrapped operation cannot be
    counted up (it holds a list, text that is no number, or the
    largest 64-bit integer), the counting wrapper raises the error of
    the increment and the operation is not run: the world is as
    before. *)
Theorem count_calls_refused
    (method : pyfunc) (self : instance) (actual : arguments) (w : world) :
  counter_value (db w) (qualname method) = None \/
  counter_value (db w) (qualname method) = Some LLONG_MAX ->
  exists msg,
    code (count_calls method) self actual w = (Raise (ResponseError msg), w).
Proof.
  intros Hc. cbn. unfold bind, redis_incr, counter_value in *.
  destruct (db w !! qualname method) as [[b|l]|] eqn:E.
  - destruct Hc as [-> | ->]; [eauto|].
    rewrite Z.eqb_refl. eauto.
  - unfold WRONGTYPE. eauto.
  - destruct Hc as [Hc|Hc]; [discriminate|]. injection Hc as Hc.
    unfold LLONG_MAX in Hc. lia.
Qed.

(** X7.  When the text of the arguments can be computed and the key
    of the inputs log holds a string, the history wrapper raises the
    Redis type error and the operation is not run: the world is as
    before. *)
Theorem call_history_refused
    (method : pyfunc) (self : instance) (actual : arguments) (s : string) (w : world) :
  Forall (fun v => repr_defined v = true) (args actual) ->
  db w !! (qualname method +:+ ":inputs") = Some (RString s) ->
  code (call_history method) self actual w = (Raise WRONGTYPE, w).
Proof.
  intros _ E. cbn. unfold bind, redis_rpush, bind, encode_or_raise. cbn. now rewrite E.
Qed.

(** X8.  An operation that returns [None] cannot succeed under the
    history wrapper: the operation has run and its input is logged,
    but the client refuses to append [None] to the outputs log and the
    wrapper raises [DataError]. *)
Theorem call_history_cannot_log_None
    (method : pyfunc) (self : instance) (actual : arguments)
    (w w1 w2 : world) (n : Z) (output : pyval) :
  redis_rpush (qualname method +:+ ":inputs") (PBytes (str_tuple (args actual))) w =
    (Return n, w1) ->
  code method self actual w1 = (Return output, w2) ->
  redis_encode output = None ->
  code (call_history method) self actual w = (Raise DataError, w2).
Proof.
  intros Hpush Hcall Henc. cbn. step Hpush. step Hcall.
  unfold bind, redis_rpush, bind, encode_or_raise. now rewrite Henc.
Qed.

Lemma log_keys_differ (q : string) : q +:+ ":inputs" <> q +:+ ":outputs".
Proof. induction q as [|c q IH]; cbn; [discriminate|]. intros [= E]. auto. Qed.

Lemma redis_rpush_value key v b w :
  redis_encode v = Some b ->
  (forall s, db w !! key <> Some (RString s)) ->
  exists n, redis_rpush key v w =
    (Return n, with_db w (<[key := RList (history (db w) key ++ [b])]> (db w))).
Proof.
  intros Hv Hs. unfold redis_rpush, bind, encode_or_raise, history. rewrite Hv. cbn.
  destruct (db w !! key) as [[s0|l0]|]; eauto. now destruct (Hs s0).
Qed.

(** X9.  A wrapped operation that returns a value the client can
    encode, and that leaves the two log keys alone, gets one entry
    appended to each log: the text of its positional arguments to the
    inputs log before it runs, its encoded result to the outputs log
    after.  The wrapper returns the result unchanged. *)
Theorem call_history_appends_pair
    (method : pyfunc) (self : instance) (actual : arguments)
    (w w2 : world) (output : pyval) (b : string) :
  let ikey := qualname method +:+ ":inputs" in
  let okey := qualname method +:+ ":outputs" in
  let w1 := with_db w (<[ikey := RList (history (db w) ikey ++
                                        [str_tuple (args actual)])]> (db w)) in
  (forall s, db w !! ikey <> Some (RString s)) ->
  (forall s, db w !! okey <> Some (RString s)) ->
  code method self actual w1 = (Return output, w2) ->
  db w2 !! ikey = db w1 !! ikey ->
  db w2 !! okey = db w1 !! okey ->
  redis_encode output = Some b ->
  let w3 := with_db w2 (<[okey := RList (history (db w) okey ++ [b])]> (db w2)) in
  code (call_history method) self actual w = (Return output, w3) /\
  history (db w3) ikey = (history (db w) ikey ++ [str_tuple (args actual)])%list /\
  history (db w3) okey = (history (db w) okey ++ [b])%list.
Proof.
  intros ikey okey w1 Hi Ho Hcall Hki Hko Henc w3.
  assert (Hne : ikey <> okey) by apply log_keys_differ.
  assert (Ho2 : db w2 !! okey = db w !! okey).
  { rewrite Hko. unfold w1. cbn. now rewrite lookup_insert_ne. }
  split; [|split].
  - cbn. fold ikey okey.
    destruct (redis_rpush_bytes ikey (str_tuple (args actual)) w Hi) as [n Hpush].
    step Hpush. fold w1. step Hcall.
    destruct (redis_rpush_value okey output b w2 Henc) as [m Hpush2].
    { intros s. rewrite Ho2. apply Ho. }
    step Hpush2. unfold ret, w3, history. now rewrite Ho2.
  - unfold w3, history. cbn. rewrite lookup_insert_ne by congruence.
    rewrite Hki. unfold w1. cbn. now rewrite lookup_insert_eq.
  - unfold w3, history. cbn. now rewrite lookup_insert_eq.
Qed.

Lemma count_calls_world (method : pyfunc) self actual w c :
  counter_value (db w) (qualname method) = Some c ->
  c < LLONG_MAX ->
  code (count_calls method) self actual w =
    code method self actual
      (with_db w (<[qualname method := RString (dec (c + 1))]> (db w))).
Proof. intros Hc Hmax. cbn. now step (redis_incr_counter _ _ _ Hc Hmax). Qed.

(** X10.  The counter counts calls made, not calls that came back:
    when the wrapped operation leaves the counter key alone, then after
    [n] calls of the wrapper in a row, each of which may return or
    raise, the counter has gone up by [n]. *)
Theorem count_calls_counts_every_call
    (method : pyfunc) (self : instance) (actual : arguments)
    (n : nat) (w : world) (c : Z) :
  (forall w0, db (code method self actual w0).2 !! qualname method =
              db w0 !! qualname method) ->
  counter_value (db w) (qualname method) = Some c ->
  c + Z.of_nat n <= LLONG_MAX ->
  counter_value
    (db (after_calls n (code (count_calls method) self actual) w))
    (qualname method) = Some (c + Z.of_nat n).
Proof.
  intros Hkeep. revert w c. induction n as [|n IH]; intros w c Hc Hmax.
  - cbn. now rewrite Z.add_0_r.
  - cbn [after_calls].
    rewrite (count_calls_world method self actual w c Hc) by lia.
    replace (c + Z.of_nat (S n)) with ((c + 1) + Z.of_nat n) by lia.
    apply IH; [|lia].
    unfold counter_value. rewrite Hkeep. cbn. rewrite lookup_insert_eq.
    apply redis_int_of_dec. apply counter_value_range in Hc. lia.
Qed.

(** ** replay *)

Lemma world_same (w : world) : w = with_stdout w (stdout w ++ []).
Proof. destruct w. unfold with_stdout. cbn. now rewrite app_nil_r. Qed.

Lemma replay_loop_only_prints key (pairs : list (string * string)) w :
  exists o lines, replay_loop key pairs w = (o, with_stdout w (stdout w ++ lines)).
Proof.
  revert w. induction pairs as [|[i o] pairs IH]; intros w.
  - exists (Return tt), []. cbn. unfold ret. now rewrite <- world_same.
  - cbn [replay_loop]. unfold bind, decode.
    destruct (Utf8.valid i); cbn;
      [|exists (Raise UnicodeDecodeError), []; now rewrite <- world_same].
    destruct (Utf8.valid o); cbn;
      [|exists (Raise UnicodeDecodeError), []; now rewrite <- world_same].
    destruct (IH (with_stdout w (stdout w ++ [replay_line key i o]))) as (r & lines & ->).
    exists r, (replay_line key i o :: lines).
    unfold with_stdout. cbn. now rewrite <- app_assoc.
Qed.

Lemma replay_only_prints (method : pyobj) (w : world) :
  exists o lines, replay method w = (o, with_stdout w (stdout w ++ lines)).
Proof.
  assert (Hsame : forall e, exists (o : outcome unit) lines,
             (Raise e, w) = (o, with_stdout w (stdout w ++ lines))).
  { intros e. exists (Raise e), []. now rewrite <- world_same. }
  unfold replay, getattr. cbn.
  destruct (fdict (function_of method) !! "_redis") as [[s|]|]; cbn; try apply Hsame.
  unfold bind at 1. unfold redis_get.
  destruct (db w !! qualname (function_of method)) as [[b|l]|]; cbn; try apply Hsame.
  unfold bind at 1. unfold decode. destruct (Utf8.valid b); cbn; try apply Hsame.
  unfold bind, attr_lrange, redis_lrange, ret, print.
  destruct (db w !! (qualname (function_of method) +:+ ":inputs")) as [[bi|li]|];
    cbn; try apply Hsame.
  all: destruct (db w !! (qualname (function_of method) +:+ ":outputs")) as [[bo|lo]|];
    cbn; try apply Hsame.
  all: match goal with
       | |- context [replay_loop ?k ?ps ?w1] =>
           destruct (replay_loop_only_prints k ps w1) as (r & lines & ->);
           exists r; eexists (_ :: lines);
           unfold with_stdout; cbn; now rewrite <- app_assoc
       | |- _ => exists (Return tt); eexists [_]; reflexivity
       end.
Qed.

(** X11.  [replay] only reads and prints.  For every object passed
    to it and every database, whether it returns or raises, the
    database is as before, and the output is the old output with lines
    added at the end. *)
Theorem replay_only_reads_and_prints (method : pyobj) (w : world) :
  db (replay method w).2 = db w /\
  drawn (replay method w).2 = drawn w /\
  exists lines, stdout (replay method w).2 = (stdout w ++ lines)%list.
Proof.
  destruct (replay_only_prints method w) as (o & lines & ->). cbn. eauto.
Qed.

Lemma replay_loop_stops key (good rest : list (string * string)) i o w :
  Forall (fun p => Utf8.valid p.1 = true /\ Utf8.valid p.2 = true) good ->
  Utf8.valid i = false \/ Utf8.valid o = false ->
  replay_loop key (good ++ (i, o) :: rest) w =
    (Raise UnicodeDecodeError,
     with_stdout w (stdout w ++ map (fun p => replay_line key p.1 p.2) good)%list).
Proof.
  intros Hgood Hbad. revert w.
  induction Hgood as [|[gi go] good [Hi Ho] _ IH]; intros w.
  - cbn [app replay_loop map]. unfold bind, decode. rewrite app_nil_r.
    destruct Hbad as [-> | Hbad]; [now destruct w|].
    destruct (Utf8.valid i); [rewrite Hbad|]; now destruct w.
  - cbn [fst snd] in Hi, Ho. cbn [app replay_loop]. unfold bind, decode.
    rewrite Hi, Ho. cbn [ret print]. rewrite IH.
    unfold with_stdout. cbn [db drawn stdout map fst snd].
    now rewrite <- app_assoc.
Qed.

(** X12.  When the logs are read and a pair holds an entry that is
    not valid UTF-8, [replay] raises [UnicodeDecodeError] there; the
    first line and the lines of the pairs before that one are already
    printed. *)
Theorem replay_prints_up_to_undecodable
    (method : pyobj) (count : string) (inputs outputs : list string)
    (good rest : list (string * string)) (i o : string) (w : world) :
  let name := qualname (function_of method) in
  fdict (function_of method) !! "_redis" = Some ARedis ->
  db w !! name = Some (RString count) ->
  Utf8.valid count = true ->
  redis_lrange (name +:+ ":inputs") 0 (-1) w = (Return inputs, w) ->
  redis_lrange (name +:+ ":outputs") 0 (-1) w = (Return outputs, w) ->
  zip inputs outputs = (good ++ (i, o) :: rest)%list ->
  Forall (fun p => Utf8.valid p.1 = true /\ Utf8.valid p.2 = true) good ->
  Utf8.valid i = false \/ Utf8.valid o = false ->
  replay method w =
    (Raise UnicodeDecodeError,
     with_stdout w
       (stdout w ++
        (name +:+ " was called " +:+ count +:+ " times:") ::
        map (fun p => replay_line name p.1 p.2) good)%list).
Proof.
  intros name Hr Hc Vc Hin Hout Hzip Hgood Hbad. unfold replay, getattr. cbn.
  fold name. rewrite Hr. cbn.
  step (redis_get_string _ _ _ Hc).
  unfold decode_reply, decode. rewrite Vc. cbn.
  step Hin. cbn. step Hout.
  unfold bind at 1. cbn. rewrite Hzip.
  rewrite (replay_loop_stops _ _ _ _ _ _ Hgood Hbad). cbn.
  now rewrite <- app_assoc.
Qed.

(** ** The class as it ends up *)

Lemma after_new_store depth data w :
  ((let* cache := Cache_new (S depth) in self_store cache (positional [data])) w).2 =
  with_db w {[ "Cache.store:inputs" := RList (replicate (S depth) (str_tuple [data])) ]}.
Proof.
  unfold Cache_new, redis_flushdb. unfold bind at 1 2. cbn [ret].
  rewrite self_store_exhausts_depth.
  - unfold with_db, history. cbn [db drawn stdout snd]. rewrite lookup_empty.
    now rewrite insert_empty.
  - intros s. cbn. now rewrite lookup_empty.
Qed.

(** X13.  What is passed to [store] of a new cache cannot be read
    back: after the call no key holds it.  For an argument whose text
    can be computed, [get] gives [None] for every key but the key of
    the inputs log, where it raises the Redis type error. *)
Theorem Cache_store_keeps_nothing
    (depth : nat) (data : pyval) (key : string) (fn : option converter) (w : world) :
  repr_defined data = true ->
  let w' := ((let* cache := Cache_new (S depth) in
              self_store cache (positional [data])) w).2 in
  get key fn w' =
    (if decide (key = "Cache.store:inputs") then Raise WRONGTYPE else Return PNone, w').
Proof.
  intros _ w'. unfold w'. rewrite after_new_store.
  unfold get, bind, redis_get. cbn [db with_db].
  destruct (decide (key = "Cache.store:inputs")) as [->|Hne].
  - now rewrite lookup_singleton_eq.
  - now rewrite lookup_singleton_ne by congruence.
Qed.

(** X14.  After [store] was called on a new cache, [replay] raises
    for every object passed to it and prints nothing: the counter it
    looks for was never written. *)
Theorem replay_after_store_raises
    (depth : nat) (data : pyval) (method : pyobj) (w : world) :
  let w' := ((let* cache := Cache_new (S depth) in
              self_store cache (positional [data])) w).2 in
  exists e, replay method w' = (Raise e, w').
Proof.
  intros w'. unfold w'. rewrite after_new_store.
  unfold replay, getattr. cbn.
  destruct (fdict (function_of method) !! "_redis") as [[s|]|]; cbn; eauto.
  unfold bind at 1. unfold redis_get. cbn [db with_db].
  destruct (decide (qualname (function_of method) = "Cache.store:inputs")) as [->|Hne].
  - rewrite lookup_singleton_eq. eauto.
  - rewrite lookup_singleton_ne by congruence. cbn. eauto.
Qed.

(** ** Integers and text through store and back *)

Lemma all_chars_rev_app test s1 s2 :
  all_chars test s1 = true -> all_chars test s2 = true ->
  all_chars test (String.rev_app s1 s2) = true.
Proof.
  revert s2. induction s1 as [|c s1 IH]; intros s2 H1 H2; cbn in *; [assumption|].
  apply andb_true_iff in H1 as [Hc H1]. apply IH; [assumption|].
  cbn. now rewrite Hc.
Qed.

Lemma append_empty_r (s : string) : s +:+ "" = s.
Proof.
  induction s as [|c s IH]; [reflexivity|].
  change (String c (s +:+ "") = String c s). now rewrite IH.
Qed.

Lemma rev_app_rev_app s1 s2 s3 :
  String.rev_app (String.rev_app s1 s2) s3 = String.rev_app s2 (s1 +:+ s3).
Proof.
  revert s2 s3. induction s1 as [|c s1 IH]; intros s2 s3; cbn; [reflexivity|].
  now rewrite IH.
Qed.

Lemma lstrip_no_space (s : string) :
  all_chars (fun c => negb (is_space c)) s = true -> lstrip s = s.
Proof.
  destruct s as [|c s]; cbn; [reflexivity|]. intros Hc.
  apply andb_true_iff in Hc as [Hc _]. now destruct (is_space c).
Qed.

Lemma strip_no_space (s : string) :
  all_chars (fun c => negb (is_space c)) s = true -> strip s = s.
Proof.
  intros Hs. unfold strip. rewrite (lstrip_no_space s Hs).
  rewrite lstrip_no_space by now apply all_chars_rev_app.
  unfold String.rev. rewrite rev_app_rev_app. cbn. apply append_empty_r.
Qed.

Lemma uint_text_no_space (d : Decimal.uint) :
  all_chars (fun c => negb (is_space c)) (NilEmpty.string_of_uint d) = true.
Proof. induction d; cbn; auto. Qed.

Lemma read_digits_from_pos (d : Decimal.uint) (p : positive) :
  read_digits (Zpos p) true (NilEmpty.string_of_uint d) =
    Some (Zpos (Pos.of_uint_acc d p)).
Proof.
  revert p. induction d; intros p; cbn [NilEmpty.string_of_uint read_digits Pos.of_uint_acc];
    [reflexivity|..].
  all: match goal with
       | |- context [is_digit ?c] => change (is_digit c) with true; cbv iota
       end.
  all: match goal with
       | |- read_digits ?acc true _ = Some (Zpos (Pos.of_uint_acc _ ?q)) =>
           replace acc with (Zpos q) by (unfold digit_value; cbn; lia)
       end.
  all: apply IHd.
Qed.

Lemma read_digits_from_zero (d : Decimal.uint) :
  read_digits 0 true (NilEmpty.string_of_uint d) = Some (Z.of_N (Pos.of_uint d)).
Proof.
  induction d; cbn [NilEmpty.string_of_uint read_digits Pos.of_uint]; [reflexivity|..].
  all: match goal with
       | |- context [is_digit ?c] => change (is_digit c) with true; cbv iota
       end.
  - exact IHd.
  - apply (read_digits_from_pos d 1).
  - apply (read_digits_from_pos d 2).
  - apply (read_digits_from_pos d 3).
  - apply (read_digits_from_pos d 4).
  - apply (read_digits_from_pos d 5).
  - apply (read_digits_from_pos d 6).
  - apply (read_digits_from_pos d 7).
  - apply (read_digits_from_pos d 8).
  - apply (read_digits_from_pos d 9).
Qed.

Lemma read_digits_start (d : Decimal.uint) :
  d <> Decimal.Nil ->
  read_digits 0 false (NilEmpty.string_of_uint d) =
  read_digits 0 true (NilEmpty.string_of_uint d).
Proof. destruct d; [congruence|..]; reflexivity. Qed.

Lemma count_digits_nonneg (s : string) : 0 <= count_digits s.
Proof. induction s as [|c s IH]; cbn; [lia|]. destruct (is_digit c); lia. Qed.

Lemma of_uint_acc_lower (d : Decimal.uint) (acc : positive) :
  Zpos acc * 10 ^ count_digits (NilEmpty.string_of_uint d) <=
  Zpos (Pos.of_uint_acc d acc).
Proof.
  revert acc.
  induction d; intros acc;
    cbn [NilEmpty.string_of_uint count_digits Pos.of_uint_acc]; [cbn; lia|..].
  all: match goal with
       | |- context [is_digit ?c] => change (is_digit c) with true; cbv iota
       end.
  all: pose proof (count_digits_nonneg (NilEmpty.string_of_uint d)) as Hc.
  all: rewrite Z.pow_add_r, Z.pow_1_r by lia.
  all: match goal with
       | |- _ <= Zpos (Pos.of_uint_acc _ ?q) => specialize (IHd q)
       end.
  all: assert (Hp : 0 < 10 ^ count_digits (NilEmpty.string_of_uint d))
         by (apply Z.pow_pos_nonneg; lia).
  all: nia.
Qed.

Lemma to_uint_no_leading_zero (p : positive) (l : Decimal.uint) :
  Pos.to_uint p <> Decimal.D0 l.
Proof.
  intros E. pose proof (Unsigned.to_of (Pos.to_uint p)) as Hn.
  rewrite Unsigned.of_to in Hn. cbn [N.to_uint] in Hn. rewrite E in Hn.
  unfold Decimal.unorm in Hn. cbn [Decimal.nzhead] in Hn.
  destruct (Decimal.nzhead l) eqn:Hz.
  - injection Hn as ->. exact (Unsigned.to_uint_nonzero p E).
  - injection Hn as ->. exact (DecimalFacts.nzhead_nonzero _ _ Hz).
  - discriminate Hn.
  - discriminate Hn.
  - discriminate Hn.
  - discriminate Hn.
  - discriminate Hn.
  - discriminate Hn.
  - discriminate Hn.
  - discriminate Hn.
  - discriminate Hn.
Qed.

(** The decimal text of an integer below [10 ^ max_str_digits] has
    at most [max_str_digits] digits. *)
Lemma count_digits_to_uint (p : positive) :
  Zpos p < 10 ^ max_str_digits ->
  count_digits (NilEmpty.string_of_uint (Pos.to_uint p)) <= max_str_digits.
Proof.
  intros Hp. pose proof (Unsigned.of_to p) as Hof.
  pose proof (Unsigned.to_uint_nonnil p) as Hnil.
  pose proof (to_uint_no_leading_zero p) as Hzero.
  destruct (Pos.to_uint p) as [|d|d|d|d|d|d|d|d|d|d];
    [congruence | now destruct (Hzero d) |..].
  all: cbn [Pos.of_uint] in Hof; injection Hof as Hof.
  all: cbn [NilEmpty.string_of_uint count_digits].
  all: match goal with
       | |- context [is_digit ?c] => change (is_digit c) with true; cbv iota
       end.
  all: pose proof (count_digits_nonneg (NilEmpty.string_of_uint d)) as Hc.
  all: match type of Hof with
       | Pos.of_uint_acc _ ?q = _ => pose proof (of_uint_acc_lower d q) as Hlow
       end.
  all: rewrite Hof in Hlow.
  all: assert (Hlt : 10 ^ count_digits (NilEmpty.string_of_uint d) < 10 ^ max_str_digits)
         by (assert (0 < 10 ^ count_digits (NilEmpty.string_of_uint d))
               by (apply Z.pow_pos_nonneg; lia); nia).
  all: apply Z.pow_lt_mono_r_iff in Hlt; unfold max_str_digits in *; lia.
Qed.

(** [int] reads back the decimal text of every integer that has a
    decimal text. *)
Lemma int_of_bytes_dec (z : Z) :
  Z.abs z < 10 ^ max_str_digits -> int_of_bytes (dec z) = Some z.
Proof.
  intros Hz.
  unfold int_of_bytes, dec. destruct z as [|p|p]; [reflexivity|..]; cbn [Z.to_int].
  - pose proof (Unsigned.to_uint_nonnil p) as Hnil.
    assert (E : NilZero.string_of_int (Decimal.Pos (Pos.to_uint p)) =
                NilEmpty.string_of_uint (Pos.to_uint p)).
    { cbn. now destruct (Pos.to_uint p). }
    rewrite E, strip_no_space by apply uint_text_no_space.
    pose proof (count_digits_to_uint p Hz) as Hc.
    destruct (Z.ltb_spec max_str_digits
                (count_digits (NilEmpty.string_of_uint (Pos.to_uint p)))); [lia|].
    transitivity (read_digits 0 false (NilEmpty.string_of_uint (Pos.to_uint p))).
    { now destruct (Pos.to_uint p). }
    rewrite read_digits_start, read_digits_from_zero by assumption.
    now rewrite Unsigned.of_to.
  - pose proof (Unsigned.to_uint_nonnil p) as Hnil.
    assert (E : NilZero.string_of_int (Decimal.Neg (Pos.to_uint p)) =
                String "-" (NilEmpty.string_of_uint (Pos.to_uint p))).
    { cbn. now destruct (Pos.to_uint p). }
    rewrite E, strip_no_space by (cbn; apply uint_text_no_space).
    pose proof (count_digits_to_uint p Hz) as Hc.
    change (count_digits (String "-" (NilEmpty.string_of_uint (Pos.to_uint p))))
      with (0 + count_digits (NilEmpty.string_of_uint (Pos.to_uint p))).
    destruct (Z.ltb_spec max_str_digits
                (0 + count_digits (NilEmpty.string_of_uint (Pos.to_uint p)))); [lia|].
    rewrite read_digits_start, read_digits_from_zero by assumption.
    now rewrite Unsigned.of_to.
Qed.

(** X15.  An integer stored with the first definition of [store] is
    read back by [get_int] as the same integer: the client sends its
    decimal text and [int] parses that text.  (The integer is taken
    within the interpreter's default limit of 4300 digits for
    conversions between integers and text.) *)
Theorem store_int_get_int
    (self : instance) (z : Z) (r : outcome pyval) (w w' : world) :
  Z.abs z < 10 ^ 4300 ->
  code store self (positional [PInt z]) w = (r, w') ->
  exists key, r = Return (PStr key) /\ get_int key w' = (Return (PInt z), w').
Proof.
  intros Hz Hcall. rewrite (store_runs self (PInt z) w (dec z) eq_refl) in Hcall.
  injection Hcall as <- <-. eexists. split; [reflexivity|].
  unfold get_int, get, bind, redis_get. cbn [db]. rewrite lookup_insert_eq.
  cbn [int truth call]. now rewrite (int_of_bytes_dec z Hz).
Qed.

(** X16.  Text stored with the first definition of [store] is read
    back by [get_str] as the same text. *)
Theorem store_str_get_str
    (self : instance) (s : string) (r : outcome pyval) (w w' : world) :
  Utf8.valid s = true ->
  code store self (positional [PStr s]) w = (r, w') ->
  exists key, r = Return (PStr key) /\ get_str key w' = (Return (PStr s), w').
Proof.
  intros Hs Hcall. rewrite (store_runs self (PStr s) w s eq_refl) in Hcall.
  injection Hcall as <- <-. eexists. split; [reflexivity|].
  unfold get_str, get, bind, redis_get. cbn [db]. rewrite lookup_insert_eq.
  cbn [decode_utf8 truth call]. unfold bind, decode. now rewrite Hs.
Qed.

(** X18.  A call of [store] with no argument or with more than one,
    all with a text that can be computed, is rejected with
    [TypeError], but only by the wrapped function: the wrapper takes
    any arguments, so the call is in the inputs log by then. *)
Theorem store_logs_calls_it_rejects
    (self : instance) (values : list pyval) (w : world) :
  Forall (fun v => repr_defined v = true) values ->
  length values <> 1%nat ->
  (forall s, db w !! "Cache.store:inputs" <> Some (RString s)) ->
  code store_logged self (positional values) w =
    (Raise TypeError,
     with_db w (<["Cache.store:inputs" :=
                  RList (history (db w) "Cache.store:inputs" ++ [str_tuple values])]>
                (db w))).
Proof.
  intros _ Hlen Hs. cbn [store_logged call_history def code].
  destruct (redis_rpush_bytes "Cache.store:inputs" (str_tuple values) w Hs) as [n Hpush].
  change (qualname store_again +:+ ":inputs") with "Cache.store:inputs".
  change (args (positional values)) with values.
  step Hpush.
  destruct values as [|v [|v' values]]; cbn in Hlen; try lia; reflexivity.
Qed.

(** X19.  The first definition of [store], when it returns, returns
    a key as text; the argument was one the client can encode, and
    [get] on that key without a converter gives the encoded argument,
    which is the argument itself when it was bytes. *)
Theorem store_then_get
    (self : instance) (data r : pyval) (w w' : world) :
  code store self (positional [data]) w = (Return r, w') ->
  exists key b,
    r = PStr key /\
    redis_encode data = Some b /\
    (forall raw, data = PBytes raw -> b = raw) /\
    get key None w' = (Return (PBytes b), w').
Proof.
  destruct (redis_encode data) as [b|] eqn:Eb.
  - rewrite (store_runs self data w b Eb). intros [= <- <-].
    exists (uuid4_str (drawn w)), b. repeat split.
    + intros raw ->. now injection Eb.
    + unfold get, bind, redis_get. cbn [db]. now rewrite lookup_insert_eq.
  - cbn. unfold bind, uuid4, redis_set, bind, encode_or_raise. rewrite Eb.
    discriminate.
Qed.

(** ** The two decorators around the first definition of store *)

Lemma tracked_store_step self data b w c :
  let ckey := "Cache.store" in
  let ikey := "Cache.count_calls.<locals>.wrapper:inputs" in
  let okey := "Cache.count_calls.<locals>.wrapper:outputs" in
  let key := uuid4_str (drawn w) in
  redis_encode data = Some b ->
  counter_value (db w) ckey = Some c -> c < LLONG_MAX ->
  (forall s, db w !! ikey <> Some (RString s)) ->
  (forall s, db w !! okey <> Some (RString s)) ->
  key <> ckey -> key <> ikey -> key <> okey ->
  code (call_history (count_calls store)) self (positional [data]) w =
    (Return (PStr key),
     {| db := <[okey := RList (history (db w) okey ++ [key])]>
              (<[key := RString b]>
               (<[ckey := RString (dec (c + 1))]>
                (<[ikey := RList (history (db w) ikey ++ [str_tuple [data]])]> (db w))));
        drawn := S (drawn w); stdout := stdout w |}).
Proof.
  intros ckey ikey okey key Henc Hc Hmax Hi Ho Hkc Hki Hko.
  cbn [call_history def code].
  change (qualname (count_calls store) +:+ ":inputs") with ikey.
  change (qualname (count_calls store) +:+ ":outputs") with okey.
  destruct (redis_rpush_bytes ikey (str_tuple [data]) w Hi) as [n Hpush].
  change (args (positional [data])) with [data].
  step Hpush. set (w1 := with_db w _).
  assert (Hc1 : counter_value (db w1) (qualname store) = Some c).
  { unfold counter_value, w1. cbn [db with_db].
    rewrite lookup_insert_ne by discriminate. exact Hc. }
  pose proof (count_calls_world store self (positional [data]) w1 c Hc1 Hmax) as Hcount.
  set (w2 := with_db w1 _) in Hcount.
  step (eq_trans Hcount (store_runs self data w2 b Henc)).
  set (w3 := {| db := _ |}).
  assert (Ho3 : db w3 !! okey = db w !! okey).
  { unfold w3, w2, w1. cbn [db with_db drawn].
    rewrite lookup_insert_ne by exact Hko.
    rewrite !lookup_insert_ne by discriminate. reflexivity. }
  destruct (redis_rpush_value okey (PStr key) key w3 eq_refl) as [m Hpush2].
  { intros s. rewrite Ho3. apply Ho. }
  step Hpush2. unfold ret. f_equal. unfold history. rewrite Ho3. reflexivity.
Qed.

Lemma tracked_store_calls self data b n : forall w c,
  redis_encode data = Some b ->
  (forall i, uuid4_str i <> "Cache.store" /\
             uuid4_str i <> "Cache.count_calls.<locals>.wrapper:inputs" /\
             uuid4_str i <> "Cache.count_calls.<locals>.wrapper:outputs") ->
  counter_value (db w) "Cache.store" = Some c -> c + Z.of_nat n <= LLONG_MAX ->
  (forall s, db w !! "Cache.count_calls.<locals>.wrapper:inputs" <> Some (RString s)) ->
  (forall s, db w !! "Cache.count_calls.<locals>.wrapper:outputs" <> Some (RString s)) ->
  forall w',
  w' = after_calls n
         (code (call_history (count_calls store)) self (positional [data])) w ->
  counter_value (db w') "Cache.store" = Some (c + Z.of_nat n) /\
  history (db w') "Cache.count_calls.<locals>.wrapper:inputs" =
    (history (db w) "Cache.count_calls.<locals>.wrapper:inputs" ++
     replicate n (str_tuple [data]))%list /\
  history (db w') "Cache.count_calls.<locals>.wrapper:outputs" =
    (history (db w) "Cache.count_calls.<locals>.wrapper:outputs" ++
     map uuid4_str (seq (drawn w) n))%list.
Proof.
  induction n as [|n IH]; intros w c Henc Hid Hc Hmax Hi Ho w' ->.
  - cbn. rewrite Z.add_0_r, !app_nil_r. auto.
  - destruct (Hid (drawn w)) as (Hkc & Hki & Hko).
    cbn [after_calls].
    rewrite (tracked_store_step self data b w c Henc Hc) by (assumption || lia).
    cbn [snd]. set (w1 := {| db := _ |}).
    assert (Hc1 : counter_value (db w1) "Cache.store" = Some (c + 1)).
    { unfold counter_value, w1. cbn [db].
      rewrite lookup_insert_ne by discriminate.
      rewrite lookup_insert_ne by exact Hkc.
      rewrite lookup_insert_eq. apply redis_int_of_dec.
      apply counter_value_range in Hc. lia. }
    assert (Hi1 : db w1 !! "Cache.count_calls.<locals>.wrapper:inputs" =
                  Some (RList (history (db w) "Cache.count_calls.<locals>.wrapper:inputs"
                               ++ [str_tuple [data]]))).
    { unfold w1. cbn [db]. rewrite lookup_insert_ne by discriminate.
      rewrite lookup_insert_ne by exact Hki.
      rewrite lookup_insert_ne by discriminate. apply lookup_insert_eq. }
    assert (Ho1 : db w1 !! "Cache.count_calls.<locals>.wrapper:outputs" =
                  Some (RList (history (db w) "Cache.count_calls.<locals>.wrapper:outputs"
                               ++ [uuid4_str (drawn w)]))).
    { unfold w1. cbn [db]. apply lookup_insert_eq. }
    destruct (IH w1 (c + 1) Henc Hid Hc1) with (w' := after_calls n
         (code (call_history (count_calls store)) self (positional [data])) w1)
      as (Rc & Ri & Ro).
    + lia.
    + intros s. rewrite Hi1. discriminate.
    + intros s. rewrite Ho1. discriminate.
    + reflexivity.
    + rewrite Rc, Ri, Ro.
      assert (Hhi : history (db w1) "Cache.count_calls.<locals>.wrapper:inputs" =
                (history (db w) "Cache.count_calls.<locals>.wrapper:inputs"
                 ++ [str_tuple [data]])%list)
        by (unfold history at 1; now rewrite Hi1).
      assert (Hho : history (db w1) "Cache.count_calls.<locals>.wrapper:outputs" =
                (history (db w) "Cache.count_calls.<locals>.wrapper:outputs"
                 ++ [uuid4_str (drawn w)])%list)
        by (unfold history at 1; now rewrite Ho1).
      rewrite Hhi, Hho.
      replace (c + 1 + Z.of_nat n) with (c + Z.of_nat (S n)) by lia.
      rewrite <- !app_assoc. auto.
Qed.

(** X17.  With [call_history] around [count_calls] around the first
    definition of [store], where no identifier drawn is one of the
    three bookkeeping keys: after [n] calls on an empty database the
    counter under the name of [store] reads [n], the inputs log holds
    the text of the arguments [n] times and the outputs log holds the
    [n] keys returned, in order.  The two logs are kept under the name
    of the counting wrapper, not under the name of [store]. *)
Theorem tracked_store_counts_and_logs
    (self : instance) (data : pyval) (b : string) (n : nat) (w : world) :
  let w' := after_calls n
              (code (call_history (count_calls store)) self (positional [data]))
              (with_db w ∅) in
  redis_encode data = Some b ->
  (forall i, uuid4_str i <> "Cache.store" /\
             uuid4_str i <> "Cache.count_calls.<locals>.wrapper:inputs" /\
             uuid4_str i <> "Cache.count_calls.<locals>.wrapper:outputs") ->
  Z.of_nat n <= LLONG_MAX ->
  counter_value (db w') "Cache.store" = Some (Z.of_nat n) /\
  history (db w') "Cache.count_calls.<locals>.wrapper:inputs" =
    replicate n (str_tuple [data]) /\
  history (db w') "Cache.count_calls.<locals>.wrapper:outputs" =
    map uuid4_str (seq (drawn w) n).
Proof.
  intros w' Henc Hid Hmax.
  destruct (tracked_store_calls self data b n (with_db w ∅) 0 Henc Hid) with (w' := w')
    as (Rc & Ri & Ro).
  - reflexivity.
  - lia.
  - intros s. cbn. now rewrite lookup_empty.
  - intros s. cbn. now rewrite lookup_empty.
  - reflexivity.
  - rewrite Rc, Ri, Ro. unfold history. cbn [db with_db].
    rewrite !lookup_empty. auto.
Qed.

End Further.

(** * The theorems at work on examples *)

#[local] Existing Instance sample_builtins.

Lemma get_absent_key_is_None_witness :
  db empty_world !! "k" = None /\
  get "k" (Some int) empty_world = (Return PNone, empty_world).
Proof.
  split; [reflexivity|].
  apply (get_absent_key_is_None "k" (Some int) empty_world). reflexivity.
Defined.



Lemma call_history_when_method_raises_witness :
  redis_rpush "Cache.store:inputs" (PBytes "('foo',)") empty_world =
    (Return 1, one_input_world) /\
  code store_again (instance_of Cache 0) (positional [PStr "foo"]) one_input_world =
    (Raise RecursionError, one_input_world) /\
  history (db one_input_world) "Cache.store:inputs" =
    (history (db empty_world) "Cache.store:inputs" ++ ["('foo',)"])%list /\
  code (call_history store_again) (instance_of Cache 0) (positional [PStr "foo"]) empty_world =
    (Raise RecursionError, one_input_world).
Proof.
  split; [reflexivity|]. split; [reflexivity|].
  exact (call_history_when_method_raises store_again
           (instance_of Cache 0) (positional [PStr "foo"]) empty_world
           one_input_world one_input_world 1 RecursionError eq_refl eq_refl).
Defined.

Lemma replay_absent_counter_raises_witness :
  db empty_world !! qualname (function_of store_with_client) = None /\
  exists owner attr,
    replay store_with_client empty_world =
      (Raise (AttributeError owner attr), empty_world) /\
    (fdict (function_of store_with_client) !! "_redis" = Some ARedis ->
     owner = "NoneType" /\ attr = "decode").
Proof.
  split; [reflexivity|].
  apply (replay_absent_counter_raises store_with_client empty_world). reflexivity.
Defined.

Lemma replay_bound_method_raises_witness :
  fobj store_logged ∈ Cache_functions /\
  replay (BoundMethod store_logged) three_calls_world =
    (Raise (AttributeError "function" "_redis"), three_calls_world).
Proof.
  assert (Hf : fobj store_logged ∈ Cache_functions)
    by (apply list_elem_of_further, list_elem_of_here).
  split; [exact Hf|].
  apply (replay_bound_method_raises _ three_calls_world Hf).
Defined.

Lemma replay_prints_count_then_pairs_witness :
  fdict (function_of store_with_client) !! "_redis" = Some ARedis /\
  db three_calls_world !! "Cache.store" = Some (RString "3") /\
  redis_lrange "Cache.store:inputs" 0 (-1) three_calls_world =
    (Return ["('foo',)"; "('bar',)"; "(42,)"], three_calls_world) /\
  redis_lrange "Cache.store:outputs" 0 (-1) three_calls_world =
    (Return ["key-1"; "key-2"; "key-3"], three_calls_world) /\
  Utf8.valid "3" = true /\
  replay store_with_client three_calls_world =
    (Return tt,
     with_stdout three_calls_world
       [ "Cache.store was called 3 times:";
         "Cache.store(*('foo',)) -> key-1";
         "Cache.store(*('bar',)) -> key-2";
         "Cache.store(*(42,)) -> key-3" ]).
Proof.
  repeat (split; [reflexivity|]).
  apply (replay_prints_count_then_pairs store_with_client "3"
           ["('foo',)"; "('bar',)"; "(42,)"] ["key-1"; "key-2"; "key-3"]
           three_calls_world);
    try reflexivity; repeat constructor.
Defined.

Lemma store_then_get_witness :
  code store (instance_of Cache 0) (positional [PInt 42]) empty_world =
    (Return (PStr first_key), stored_42_world) /\
  exists key b,
    PStr first_key = PStr key /\
    redis_encode (PInt 42) = Some b /\
    (forall raw, PInt 42 = PBytes raw -> b = raw) /\
    get key None stored_42_world = (Return (PBytes b), stored_42_world).
Proof.
  split; [reflexivity|].
  exact (store_then_get (instance_of Cache 0) (PInt 42) (PStr first_key)
           empty_world stored_42_world eq_refl).
Defined.

Lemma Cache_store_recurses_without_end_witness :
  repr_defined (PStr "foo") = true /\
  (forall s, db empty_world !! "Cache.store:inputs" <> Some (RString s)) /\
  self_store (instance_of Cache 3) (positional [PStr "foo"]) empty_world =
    (Raise RecursionError,
     with_db empty_world
       {[ "Cache.store:inputs" := RList ["('foo',)"; "('foo',)"; "('foo',)"] ]}).
Proof.
  split; [reflexivity|]. split; [intros s E; discriminate E|].
  exact (proj2 (proj2 Cache_store_recurses_without_end) 2%nat (PStr "foo") empty_world
           eq_refl ltac:(intros s E; discriminate E)).
Defined.

Lemma replay_of_class_function_prints_nothing_witness :
  fobj store_logged ∈ Cache_functions /\
  db three_wrapper_calls_world !! qualname store_logged = Some (RString "3") /\
  length (history (db three_wrapper_calls_world)
            (qualname store_logged +:+ ":inputs")) = 3%nat /\
  length (history (db three_wrapper_calls_world)
            (qualname store_logged +:+ ":outputs")) = 3%nat /\
  replay (Function store_logged) three_wrapper_calls_world =
    (Raise (AttributeError "function" "_redis"), three_wrapper_calls_world).
Proof.
  assert (Hf : fobj store_logged ∈ Cache_functions)
    by (apply list_elem_of_further, list_elem_of_here).
  split; [exact Hf|]. repeat (split; [reflexivity|]).
  exact (replay_of_class_function_prints_nothing store_logged (Function store_logged)
           three_wrapper_calls_world Hf eq_refl).
Defined.

Lemma get_on_list_raises_witness :
  db world_with_list !! "log" = Some (RList ["a"; "b"]) /\
  get "log" (Some int) world_with_list = (Raise WRONGTYPE, world_with_list).
Proof.
  split; [reflexivity|].
  exact (get_on_list_raises "log" ["a"; "b"] (Some int) world_with_list eq_refl).
Defined.

Lemma store_refuses_unencodable_witness :
  redis_encode PNone = None /\
  code store (instance_of Cache 0) (positional [PNone]) empty_world =
    (Raise DataError, World ∅ 1 []).
Proof.
  split; [reflexivity|].
  exact (store_refuses_unencodable (instance_of Cache 0) PNone empty_world eq_refl).
Defined.

Lemma store_two_then_get_witness :
  redis_encode (PStr "foo") = Some "foo" /\
  redis_encode (PInt 42) = Some "42" /\
  exists w2,
    store_two (instance_of Cache 0) (PStr "foo") (PInt 42) empty_world =
      (Return (PStr first_key, PStr second_key), w2) /\
    get second_key None w2 = (Return (PBytes "42"), w2) /\
    get first_key None w2 = (Return (PBytes "foo"), w2).
Proof.
  split; [reflexivity|]. split; [reflexivity|].
  exact (store_two_then_get (instance_of Cache 0) (PStr "foo") (PInt 42)
           "foo" "42" empty_world eq_refl eq_refl).
Defined.

Lemma count_calls_refused_witness :
  counter_value (db text_at_counter_world) "Cache.store" = None /\
  exists msg,
    code (count_calls store) (instance_of Cache 0) (positional [PStr "foo"])
      text_at_counter_world = (Raise (ResponseError msg), text_at_counter_world).
Proof.
  split; [reflexivity|].
  exact (count_calls_refused store (instance_of Cache 0) (positional [PStr "foo"])
           text_at_counter_world (or_introl eq_refl)).
Defined.

Lemma call_history_refused_witness :
  Forall (fun v => repr_defined v = true) [PStr "foo"] /\
  db string_at_inputs_world !! "Cache.store:inputs" = Some (RString "x") /\
  code (call_history store_again) (instance_of Cache 0) (positional [PStr "foo"])
    string_at_inputs_world = (Raise WRONGTYPE, string_at_inputs_world).
Proof.
  assert (Hr : Forall (fun v => repr_defined v = true) [PStr "foo"])
    by (repeat constructor).
  split; [exact Hr|]. split; [reflexivity|].
  exact (call_history_refused store_again (instance_of Cache 0)
           (positional [PStr "foo"]) "x" string_at_inputs_world Hr eq_refl).
Defined.

Lemma call_history_cannot_log_None_witness :
  redis_rpush "Cache.touch:inputs" (PBytes "()") empty_world =
    (Return 1, touch_logged_world) /\
  code returns_None (instance_of Cache 0) (positional []) touch_logged_world =
    (Return PNone, touch_logged_world) /\
  redis_encode PNone = None /\
  code (call_history returns_None) (instance_of Cache 0) (positional []) empty_world =
    (Raise DataError, touch_logged_world).
Proof.
  split; [reflexivity|]. split; [reflexivity|]. split; [reflexivity|].
  exact (call_history_cannot_log_None returns_None (instance_of Cache 0)
           (positional []) empty_world touch_logged_world touch_logged_world
           1 PNone eq_refl eq_refl eq_refl).
Defined.

Lemma call_history_appends_pair_witness :
  code store (instance_of Cache 0) (positional [PStr "foo"]) one_input_world =
    (Return (PStr first_key), stored_foo_logged_world) /\
  redis_encode (PStr first_key) = Some first_key /\
  exists w3,
    code (call_history store) (instance_of Cache 0) (positional [PStr "foo"])
      empty_world = (Return (PStr first_key), w3) /\
    history (db w3) "Cache.store:inputs" = ["('foo',)"] /\
    history (db w3) "Cache.store:outputs" = [first_key].
Proof.
  split; [reflexivity|]. split; [reflexivity|].
  eexists.
  exact (call_history_appends_pair store (instance_of Cache 0)
           (positional [PStr "foo"]) empty_world stored_foo_logged_world
           (PStr first_key) first_key
           ltac:(intros s E; discriminate E) ltac:(intros s E; discriminate E)
           eq_refl eq_refl eq_refl eq_refl).
Defined.

Lemma count_calls_counts_every_call_witness :
  (forall w0,
     db (code store_again (instance_of Cache 0) (positional [PStr "foo"]) w0).2
       !! "Cache.store" = db w0 !! "Cache.store") /\
  counter_value (db empty_world) "Cache.store" = Some 0 /\
  0 + Z.of_nat 3 <= LLONG_MAX /\
  counter_value
    (db (after_calls 3
           (code store_counted (instance_of Cache 0) (positional [PStr "foo"]))
           empty_world))
    "Cache.store" = Some 3.
Proof.
  split; [intros w0; reflexivity|]. split; [reflexivity|].
  split; [discriminate|].
  exact (count_calls_counts_every_call store_again (instance_of Cache 0)
           (positional [PStr "foo"]) 3 empty_world 0
           (fun w0 => eq_refl) eq_refl (fun E => ltac:(discriminate E))).
Defined.

Lemma replay_prints_up_to_undecodable_witness :
  fdict (function_of store_with_client) !! "_redis" = Some ARedis /\
  db second_output_bad_world !! "Cache.store" = Some (RString "2") /\
  Utf8.valid "2" = true /\
  Utf8.valid (String (ascii_of_N 255) "") = false /\
  replay store_with_client second_output_bad_world =
    (Raise UnicodeDecodeError,
     with_stdout second_output_bad_world
       [ "Cache.store was called 2 times:";
         "Cache.store(*('foo',)) -> key-1" ]).
Proof.
  repeat (split; [reflexivity|]).
  apply (replay_prints_up_to_undecodable store_with_client "2"
           ["('foo',)"; "('bar',)"] ["key-1"; String (ascii_of_N 255) ""]
           [("('foo',)", "key-1")] [] "('bar',)" (String (ascii_of_N 255) "")
           second_output_bad_world);
    try reflexivity; [repeat constructor | right; reflexivity].
Defined.

Lemma store_int_get_int_witness :
  Z.abs 42 < 10 ^ 4300 /\
  code store (instance_of Cache 0) (positional [PInt 42]) empty_world =
    (Return (PStr first_key), stored_42_world) /\
  exists key,
    Return (PStr first_key) = Return (PStr key) /\
    get_int key stored_42_world = (Return (PInt 42), stored_42_world).
Proof.
  split; [reflexivity|]. split; [reflexivity|].
  exact (store_int_get_int (instance_of Cache 0) 42 (Return (PStr first_key))
           empty_world stored_42_world eq_refl eq_refl).
Defined.

Lemma store_str_get_str_witness :
  Utf8.valid "foo" = true /\
  code store (instance_of Cache 0) (positional [PStr "foo"]) empty_world =
    (Return (PStr first_key), stored_foo_world) /\
  exists key,
    Return (PStr first_key) = Return (PStr key) /\
    get_str key stored_foo_world = (Return (PStr "foo"), stored_foo_world).
Proof.
  split; [reflexivity|]. split; [reflexivity|].
  exact (store_str_get_str (instance_of Cache 0) "foo" (Return (PStr first_key))
           empty_world stored_foo_world eq_refl eq_refl).
Defined.

Lemma sample_identifiers_are_no_bookkeeping_keys (i : nat) :
  uuid4_str i <> "Cache.store" /\
  uuid4_str i <> "Cache.count_calls.<locals>.wrapper:inputs" /\
  uuid4_str i <> "Cache.count_calls.<locals>.wrapper:outputs".
Proof. repeat split; discriminate. Defined.

Lemma tracked_store_counts_and_logs_witness :
  redis_encode (PStr "foo") = Some "foo" /\
  Z.of_nat 2 <= LLONG_MAX /\
  let w' := after_calls 2
              (code (call_history (count_calls store)) (instance_of Cache 0)
                 (positional [PStr "foo"]))
              (with_db empty_world ∅) in
  counter_value (db w') "Cache.store" = Some 2 /\
  history (db w') "Cache.count_calls.<locals>.wrapper:inputs" =
    ["('foo',)"; "('foo',)"] /\
  history (db w') "Cache.count_calls.<locals>.wrapper:outputs" =
    [first_key; second_key].
Proof.
  split; [reflexivity|]. split; [discriminate|].
  exact (tracked_store_counts_and_logs (instance_of Cache 0) (PStr "foo") "foo" 2
           empty_world eq_refl sample_identifiers_are_no_bookkeeping_keys
           ltac:(discriminate)).
Defined.

Lemma store_logs_calls_it_rejects_witness :
  length (A:=pyval) [] <> 1%nat /\
  code store_logged (instance_of Cache 3) (positional []) empty_world =
    (Raise TypeError,
     with_db empty_world {[ "Cache.store:inputs" := RList ["()"] ]}).
Proof.
  split; [discriminate|].
  exact (store_logs_calls_it_rejects (instance_of Cache 3) [] empty_world
           ltac:(constructor) ltac:(discriminate) ltac:(intros s E; discriminate E)).
Defined.

Lemma Cache_store_keeps_nothing_witness :
  repr_defined (PStr "foo") = true /\
  get "Cache.store:inputs" None
    (with_db empty_world {[ "Cache.store:inputs" := RList ["('foo',)"; "('foo',)"] ]}) =
    (Raise WRONGTYPE,
     with_db empty_world {[ "Cache.store:inputs" := RList ["('foo',)"; "('foo',)"] ]}) /\
  get first_key (Some int)
    (with_db empty_world {[ "Cache.store:inputs" := RList ["('foo',)"; "('foo',)"] ]}) =
    (Return PNone,
     with_db empty_world {[ "Cache.store:inputs" := RList ["('foo',)"; "('foo',)"] ]}).
Proof.
  split; [reflexivity|]. split.
  - exact (Cache_store_keeps_nothing 1 (PStr "foo") "Cache.store:inputs" None
             empty_world eq_refl).
  - exact (Cache_store_keeps_nothing 1 (PStr "foo") first_key (Some int)
             empty_world eq_refl).
Defined.

(** * Where the code departs from what is said of it *)

(** C6, as first stated, fails.  At the deepest level of the
    recursion of [store] the wrapped operation raises; the two logs
    were paired before the call (both empty), and after it the inputs
    log has an entry that no output matches. *)
Lemma call_history_leaves_input_unpaired :
  code store_again (instance_of Cache 0) (positional [PStr "foo"]) one_input_world =
    (Raise RecursionError, one_input_world) /\
  code (call_history store_again) (instance_of Cache 0) (positional [PStr "foo"]) empty_world =
    (Raise RecursionError, one_input_world) /\
  history (db empty_world) "Cache.store:inputs" = [] /\
  history (db empty_world) "Cache.store:outputs" = [] /\
  history (db one_input_world) "Cache.store:inputs" = ["('foo',)"] /\
  history (db one_input_world) "Cache.store:outputs" = [].
Proof. repeat split. Qed.

(** C1, as first stated, fails.  Where the key of the inputs log
    holds a string, a call of [store] that may nest five deep does not
    recurse: the first step of the wrapper raises the Redis type error
    and the call ends there, the world unchanged. *)
Lemma Cache_store_stops_at_string_log_key :
  db string_at_inputs_world !! "Cache.store:inputs" = Some (RString "x") /\
  self_store (instance_of Cache 5) (positional [PStr "foo"]) string_at_inputs_world =
    (Raise WRONGTYPE, string_at_inputs_world).
Proof. repeat split. Qed.

